(** * Compliance monitor (monitoring/sentry-integration.py)

    A shallow embedding of the polling sidecar and the properties its
    specification states about it.

    The script talks to five outside parties: the monitored service (HTTP
    GET), the metrics gateway (push), the error-tracking sink
    (capture_message / capture_exception), the paging service (HTTP POST)
    and the process itself (environment variables, standard output, the
    clock).  Every such interaction is recorded as an [event]; what the
    outside answers is read from a [cycle_env].  The only state the program
    keeps between two statements is its metrics registry.

    Scope of the model.
    - Decoded JSON has no fractional numbers: a JSON number is an integer
      here.  The gauge holds the integer value of the double that
      [Gauge.set] stores ([float_of_int]).  The counters are exact
      integers, where prometheus_client adds 1.0 to a double; the two
      agree up to 2^53 increments.
    - Exceptions are the subclasses of [Exception]; the sinks themselves
      (capture_message, capture_exception, print) return normally. *)

From stdpp Require Import gmap strings list fin_maps pretty.

Local Open Scope Z_scope.
Set Warnings "-register-all".

(** ** Values received from the monitored service *)

(** A decoded JSON document.  [JDict] lists the fields of the decoded
    object in insertion order, one binding per key. *)
Inductive json :=
| JNull
| JBool (b : bool)
| JInt (z : Z)
| JStr (s : string)
| JList (items : list json)
| JDict (fields : list (string * json)).

(** Exceptions that the [except Exception] clauses can see. *)
Inductive exn :=
| KeyError (key : string)
| TypeError
| ValueError
| OverflowError
| BadDsn
| RequestException (what : string).

Inductive outcome (A : Type) :=
| Ret (a : A)
| Raise (e : exn).
Arguments Ret {A} a.
Arguments Raise {A} e.

(** What the interpreter and its libraries supply and the script only
    calls: the text of [repr] on containers, the text of [str(e)], which
    strings [float] accepts, and which DSN [sentry_sdk.init] accepts. *)
Class PyRuntime := {
  py_repr : json -> string;
  py_exn_str : exn -> string;
  py_float_str : string -> bool;
  sentry_accepts : option string -> bool
}.

(** [str(v)], as used by f-strings and by [Gauge.labels]. *)
Definition py_str `{PyRuntime} (v : json) : string :=
  match v with
  | JNull => "None"
  | JBool true => "True"
  | JBool false => "False"
  | JInt z => pretty z
  | JStr s => s
  | JList _ | JDict _ => py_repr v
  end.

(** Truth value of [v] in a condition. *)
Definition truthy (v : json) : bool :=
  match v with
  | JNull => false
  | JBool b => b
  | JInt z => negb (z =? 0)
  | JStr s => negb (String.eqb s "")
  | JList items => match items with [] => false | _ => true end
  | JDict fields => match fields with [] => false | _ => true end
  end.

Fixpoint dict_get (fields : list (string * json)) (key : string) : option json :=
  match fields with
  | [] => None
  | (k, v) :: rest => if String.eqb k key then Some v else dict_get rest key
  end.

(** [v[key]] for a string key. *)
Definition getitem (v : json) (key : string) : outcome json :=
  match v with
  | JDict fields =>
      match dict_get fields key with
      | Some x => Ret x
      | None => Raise (KeyError key)
      end
  | _ => Raise TypeError
  end.

(** The one-character strings of [s]. *)
Fixpoint chars (s : string) : list json :=
  match s with
  | EmptyString => []
  | String c rest => JStr (String c EmptyString) :: chars rest
  end.

(** The items a [for] loop draws from [v]: the elements of a list, the
    keys of an object, the characters of a string. *)
Definition py_iter (v : json) : outcome (list json) :=
  match v with
  | JList items => Ret items
  | JDict fields => Ret (map (fun kv => JStr (fst kv)) fields)
  | JStr s => Ret (chars s)
  | _ => Raise TypeError
  end.

(** [v == s] for a string literal [s]. *)
Definition py_eq_str (v : json) (s : string) : bool :=
  match v with
  | JStr t => String.eqb t s
  | _ => false
  end.

(** [v > n] for an integer literal [n]. *)
Definition py_gt_int (v : json) (n : Z) : outcome bool :=
  match v with
  | JInt z => Ret (n <? z)
  | JBool b => Ret (n <? (if b then 1 else 0))
  | _ => Raise TypeError
  end.

(** ** The metrics registry *)

(** The sample held by the unlabelled gauge: a double of integer value,
    or [float(s)] of a numeric string [s]. *)
Inductive sample :=
| Exact (z : Z)
| Parsed (s : string).

(** The three metric families created by [__init__].  A labelled family
    maps each label value seen so far to its sample. *)
Record registry := Registry {
  state_violations : gmap string Z;
  kyc_queue_size : sample;
  daily_deposits : gmap string Z
}.

Definition empty_registry : registry :=
  {| state_violations := ∅; kyc_queue_size := Exact 0; daily_deposits := ∅ |}.

(** The sample of a labelled family at [label]; a child that was never
    touched reads as 0. *)
Definition sample_at (m : gmap string Z) (label : string) : Z :=
  default 0 (m !! label).

(** [family.labels(label).inc()] *)
Definition inc_label (m : gmap string Z) (label : string) : gmap string Z :=
  <[label := sample_at m label + 1]> m.

(** ** Interactions with the outside *)

Inductive event :=
| Getenv (name : string)
| SentryInit (dsn : option string) (environment : string)
| HttpGet (url : string)
| HttpPost (url : string) (body : json)
| CaptureMessage (message level : string) (extras : list (string * json))
| CaptureException (e : exn)
| Print (line : string)
| PushToGateway (gateway job : string) (metrics : registry)
| Sleep (seconds : Z).

(** What the outside answers during one cycle of the loop.
    [http_get_json url] is the result of [requests.get(url)] followed by
    [.json()] on the response. *)
Record cycle_env := {
  environ : string -> option string;
  http_get_json : string -> outcome json;
  http_post : string -> json -> outcome unit;
  gateway_push : string -> string -> registry -> outcome unit;
  utcnow_isoformat : string
}.

(** ** The monad of the script: environment, registry, trace, exceptions *)

Record run (A : Type) := Run {
  result : outcome A;
  final : registry;
  trace : list event
}.
Arguments Run {A} result final trace.
Arguments result {A} r.
Arguments final {A} r.
Arguments trace {A} r.

Definition M (A : Type) : Type := cycle_env -> registry -> run A.

Definition ret {A} (a : A) : M A := fun _ r => Run (Ret a) r [].

(** Sequencing.  An exception in [m] skips [k]; what [m] did to the
    registry and sent out before raising stays. *)
Definition bind {A B} (m : M A) (k : A -> M B) : M B :=
  fun env r =>
    let x := m env r in
    match result x with
    | Ret a =>
        let y := k a env (final x) in
        Run (result y) (final y) (trace x ++ trace y)
    | Raise e => Run (Raise e) (final x) (trace x)
    end.

Declare Scope py_scope.
Delimit Scope py_scope with py.
Notation "x <- m ;; k" := (bind m (fun x => k))
  (at level 100, m at next level, right associativity) : py_scope.
Notation "m ;; k" := (bind m (fun _ => k))
  (at level 100, right associativity) : py_scope.
Local Open Scope py_scope.

(** [try: body except Exception as e: handler e] *)
Definition try_except (body : M unit) (handler : exn -> M unit) : M unit :=
  fun env r =>
    let x := body env r in
    match result x with
    | Ret _ => x
    | Raise e =>
        let y := handler e env (final x) in
        Run (result y) (final y) (trace x ++ trace y)
    end.

Definition lift {A} (o : outcome A) : M A := fun _ r => Run o r [].

Definition emit (ev : event) : M unit := fun _ r => Run (Ret tt) r [ev].

Definition modify (f : registry -> registry) : M unit :=
  fun _ r => Run (Ret tt) (f r) [].

Fixpoint for_each (items : list json) (body : json -> M unit) : M unit :=
  match items with
  | [] => ret tt
  | v :: rest => body v ;; for_each rest body
  end.

(** *** Library calls *)

Definition getenv (name : string) : M (option string) :=
  fun env r => Run (Ret (environ env name)) r [Getenv name].

Definition getenv_default (name dflt : string) : M string :=
  v <- getenv name ;; ret (default dflt v).

Definition requests_get_json (url : string) : M json :=
  fun env r => Run (http_get_json env url) r [HttpGet url].

Definition requests_post (url : string) (body : json) : M unit :=
  fun env r => Run (http_post env url body) r [HttpPost url body].

Definition capture_message (message level : string)
    (extras : list (string * json)) : M unit :=
  emit (CaptureMessage message level extras).

Definition capture_exception (e : exn) : M unit := emit (CaptureException e).

Definition print (line : string) : M unit := emit (Print line).

Definition push_to_gateway (gateway job : string) : M unit :=
  fun env r => Run (gateway_push env gateway job r) r [PushToGateway gateway job r].

Definition sleep (seconds : Z) : M unit := emit (Sleep seconds).

Definition utcnow : M string := fun env r => Run (Ret (utcnow_isoformat env)) r [].

(** [self.state_violations.labels(state=v).inc()]: the label value is
    [str(v)]. *)
Definition state_violations_inc `{PyRuntime} (v : json) : M unit :=
  modify (fun r =>
    {| state_violations := inc_label (state_violations r) (py_str v);
       kyc_queue_size := kyc_queue_size r;
       daily_deposits := daily_deposits r |}).

(** [float(z)] for an integer [z]: the nearest double, ties to the even
    mantissa, given by its integer value; [None] when the result would
    be 2^1024 or more in magnitude, where Python raises [OverflowError].
    Integers up to 2^53 in magnitude convert to themselves. *)
Definition float_of_int (z : Z) : option Z :=
  let a := Z.abs z in
  let shift := Z.log2 a - 52 in
  if shift <=? 0 then Some z
  else
    let q := a / 2 ^ shift in
    let rest := a mod 2 ^ shift in
    let half := 2 ^ (shift - 1) in
    let q' := if (half <? rest) || ((rest =? half) && Z.odd q)
              then q + 1 else q in
    let d := q' * 2 ^ shift in
    if 2 ^ 1024 <=? d then None else Some (Z.sgn z * d).

(** [float(v)] as [Gauge.set] applies it to its argument. *)
Definition to_sample `{PyRuntime} (v : json) : outcome sample :=
  match v with
  | JInt z =>
      match float_of_int z with
      | Some d => Ret (Exact d)
      | None => Raise OverflowError
      end
  | JBool b => Ret (Exact (if b then 1 else 0))
  | JStr s => if py_float_str s then Ret (Parsed s) else Raise ValueError
  | _ => Raise TypeError
  end.

(** [self.kyc_queue_size.set(v)] *)
Definition kyc_queue_size_set `{PyRuntime} (v : json) : M unit :=
  x <- lift (to_sample v) ;;
  modify (fun r =>
    {| state_violations := state_violations r;
       kyc_queue_size := x;
       daily_deposits := daily_deposits r |}).

(** ** The program *)

(** The attributes [__init__] reads from the environment.  The registry
    it creates is the state threaded through [M]. *)
Record ComplianceMonitor := {
  prometheus_gateway : string;
  api_base : string
}.

(** [sentry_sdk.init(...)] at module level.  The library raises
    [BadDsn] on a DSN it cannot parse; nothing catches it there. *)
Definition sentry_init `{PyRuntime} : M unit :=
  dsn <- getenv "SENTRY_DSN" ;;
  environment <- getenv_default "ENVIRONMENT" "production" ;;
  emit (SentryInit dsn environment) ;;
  if sentry_accepts dsn then ret tt else lift (Raise BadDsn).

(** [ComplianceMonitor.__init__] *)
Definition init : M ComplianceMonitor :=
  gateway <- getenv_default "PROMETHEUS_GATEWAY" "localhost:9091" ;;
  base <- getenv_default "API_BASE" "http://localhost:8080" ;;
  modify (fun _ => empty_registry) ;;
  ret {| prometheus_gateway := gateway; api_base := base |}.

Section Program.
Context `{PyRuntime}.

(** Body of the loop over the violations (the [if] and what it guards). *)
Definition process_violation (violation : json) : M unit :=
  type <- lift (getitem violation "type") ;;
  if py_eq_str type "STATE_RESTRICTION" then
    state <- lift (getitem violation "state") ;;
    state_violations_inc state ;;
    shown <- lift (getitem violation "state") ;;
    user_id <- lift (getitem violation "user_id") ;;
    state' <- lift (getitem violation "state") ;;
    timestamp <- lift (getitem violation "timestamp") ;;
    capture_message
      ("State restriction violation: " +:+ py_str shown)
      "error"
      [("user_id", user_id); ("state", state'); ("timestamp", timestamp)]
  else ret tt.

(** The block under "Check state violations". *)
Definition check_state_violations (self : ComplianceMonitor) : M unit :=
  violations <-
    requests_get_json (api_base self +:+ "/api/v1/admin/compliance/violations") ;;
  items <- lift (py_iter violations) ;;
  for_each items process_violation.

(** The block under "Check KYC queue". *)
Definition check_kyc_queue (self : ComplianceMonitor) : M unit :=
  kyc <- requests_get_json (api_base self +:+ "/api/v1/admin/kyc/queue/size") ;;
  queue_size <- lift (getitem kyc "size") ;;
  kyc_queue_size_set queue_size ;;
  backlog <- lift (py_gt_int queue_size 100) ;;
  if backlog : bool then
    capture_message
      ("KYC queue backlog: " +:+ py_str queue_size +:+ " cases pending")
      "warning" []
  else ret tt.

(** The block under "Push metrics to Prometheus". *)
Definition push_metrics (self : ComplianceMonitor) : M unit :=
  push_to_gateway (prometheus_gateway self) "compliance_monitor".

(** The statements under [try] in [check_compliance_violations]: the
    three blocks in sequence. *)
Definition compliance_checks (self : ComplianceMonitor) : M unit :=
  check_state_violations self ;;
  check_kyc_queue self ;;
  push_metrics self.

Definition check_compliance_violations (self : ComplianceMonitor) : M unit :=
  try_except (compliance_checks self)
    (fun e =>
       capture_exception e ;;
       print ("Error in compliance check: " +:+ py_exn_str e)).

(** The event body posted to the paging service. *)
Definition pagerduty_event (routing_key title message now : string) : json :=
  JDict
    [("routing_key", JStr routing_key);
     ("event_action", JStr "trigger");
     ("payload",
       JDict
         [("summary", JStr title);
          ("source", JStr "luckxpress-monitor");
          ("severity", JStr "critical");
          ("custom_details",
            JDict [("message", JStr message); ("timestamp", JStr now)])])].

Definition trigger_pagerduty_alert (self : ComplianceMonitor)
    (title message : string) : M unit :=
  pagerduty_key <- getenv "PAGERDUTY_KEY" ;;
  match pagerduty_key with
  | Some key =>
      if negb (String.eqb key "") then
        now <- utcnow ;;
        requests_post "https://events.pagerduty.com/v2/enqueue"
          (pagerduty_event key title message now)
      else ret tt
  | None => ret tt
  end.

(** The statements under [try] in [check_financial_integrity]. *)
Definition integrity_checks (self : ComplianceMonitor) : M unit :=
  integrity <-
    requests_get_json (api_base self +:+ "/api/v1/admin/financial/integrity") ;;
  balanced <- lift (getitem integrity "balanced") ;;
  if negb (truthy balanced) then
    imbalance <- lift (getitem integrity "imbalance") ;;
    affected_users <- lift (getitem integrity "affected_users") ;;
    capture_message "CRITICAL: Ledger imbalance detected" "fatal"
      [("imbalance_amount", imbalance); ("affected_users", affected_users)] ;;
    amount <- lift (getitem integrity "imbalance") ;;
    trigger_pagerduty_alert self "Ledger Imbalance"
      ("Imbalance of " +:+ py_str amount +:+ " detected")
  else ret tt.

Definition check_financial_integrity (self : ComplianceMonitor) : M unit :=
  try_except (integrity_checks self) (fun e => capture_exception e).

(** One turn of [while True]. *)
Definition cycle (self : ComplianceMonitor) : M unit :=
  check_compliance_violations self ;;
  check_financial_integrity self ;;
  sleep 60.

(** The loop, followed through the cycles whose answers are given.  An
    exception leaving a cycle ends the loop. *)
Fixpoint main_loop (self : ComplianceMonitor) (cycles : list cycle_env)
    (r : registry) : run unit :=
  match cycles with
  | [] => Run (Ret tt) r []
  | env :: rest =>
      let x := cycle self env r in
      match result x with
      | Ret _ =>
          let y := main_loop self rest (final x) in
          Run (result y) (final y) (trace x ++ trace y)
      | Raise e => x
      end
  end.

(** The script: module-level initialisation, the monitor, the loop.
    [boot] answers during start-up. *)
Definition main (boot : cycle_env) (cycles : list cycle_env) : run unit :=
  let x := (sentry_init ;; init) boot empty_registry in
  match result x with
  | Ret self =>
      let y := main_loop self cycles (final x) in
      Run (result y) (final y) (trace x ++ trace y)
  | Raise e => Run (Raise e) (final x) (trace x)
  end.

End Program.

Arguments trigger_pagerduty_alert : simpl never.

(** ** Reading a trace *)

Definition message_at (level : string) (ev : event)
    : option (string * list (string * json)) :=
  match ev with
  | CaptureMessage message l extras =>
      if String.eqb l level then Some (message, extras) else None
  | _ => None
  end.

Definition any_message (ev : event) : option (string * string) :=
  match ev with
  | CaptureMessage message l _ => Some (message, l)
  | _ => None
  end.

Definition captured_exception (ev : event) : option exn :=
  match ev with CaptureException e => Some e | _ => None end.

Definition printed_line (ev : event) : option string :=
  match ev with Print line => Some line | _ => None end.

Definition pushed_metrics (ev : event) : option registry :=
  match ev with PushToGateway _ _ metrics => Some metrics | _ => None end.

Definition posted_body (ev : event) : option (string * json) :=
  match ev with HttpPost url body => Some (url, body) | _ => None end.

Definition fetched_url (ev : event) : option string :=
  match ev with HttpGet url => Some url | _ => None end.

Definition env_read (ev : event) : option string :=
  match ev with Getenv name => Some name | _ => None end.

(** Notifications of one level, in the order sent. *)
Definition messages_at (level : string) (t : list event) :=
  omap (message_at level) t.

(** All notifications, whatever the level. *)
Definition messages (t : list event) := omap any_message t.

Definition captured (t : list event) := omap captured_exception t.
Definition printed (t : list event) := omap printed_line t.
Definition pushes (t : list event) := omap pushed_metrics t.
Definition posts (t : list event) := omap posted_body t.
Definition fetches (t : list event) := omap fetched_url t.

(** Calls of the paging operation: each starts by reading its
    credential, and nothing else reads it. *)
Definition paging_calls (t : list event) : list string :=
  List.filter (String.eqb "PAGERDUTY_KEY") (omap env_read t).

(** ** Well-formed payloads *)

(** The field [key] of an object; [None] for a missing key and for
    anything that is not an object. *)
Definition field (v : json) (key : string) : option json :=
  match v with
  | JDict fields => dict_get fields key
  | _ => None
  end.

(** The entry is tagged as a state restriction. *)
Definition is_state_restriction (v : json) : bool :=
  match field v "type" with
  | Some t => py_eq_str t "STATE_RESTRICTION"
  | None => false
  end.

(** A Violation of the data model: an object with a type tag which, when
    tagged as a state restriction, also has state, user_id and
    timestamp. *)
Definition violation_ok (v : json) : bool :=
  match field v "type" with
  | Some t =>
      if py_eq_str t "STATE_RESTRICTION" then
        bool_decide (is_Some (field v "state"))
        && bool_decide (is_Some (field v "user_id"))
        && bool_decide (is_Some (field v "timestamp"))
      else true
  | None => false
  end.

Definition restricted (vs : list json) : list json :=
  List.filter is_state_restriction vs.

Definition state_of (v : json) : json := default JNull (field v "state").
Definition user_id_of (v : json) : json := default JNull (field v "user_id").
Definition timestamp_of (v : json) : json := default JNull (field v "timestamp").

(** An IntegrityReport of the data model: a boolean [balanced] which,
    when false, comes with imbalance and affected_users. *)
Definition integrity_ok (v : json) (balanced : bool) : Prop :=
  field v "balanced" = Some (JBool balanced) /\
  (balanced = false ->
   is_Some (field v "imbalance") /\ is_Some (field v "affected_users")).

Definition violations_url (self : ComplianceMonitor) : string :=
  api_base self +:+ "/api/v1/admin/compliance/violations".
Definition kyc_url (self : ComplianceMonitor) : string :=
  api_base self +:+ "/api/v1/admin/kyc/queue/size".
Definition integrity_url (self : ComplianceMonitor) : string :=
  api_base self +:+ "/api/v1/admin/financial/integrity".

(** ** A concrete runtime and concrete answers, for running the model *)

Module Demo.

#[export] Instance runtime : PyRuntime := {|
  py_repr := fun _ => "[...]";
  py_exn_str := fun e =>
    match e with
    | KeyError key => "'" +:+ key +:+ "'"
    | TypeError => "TypeError"
    | ValueError => "ValueError"
    | OverflowError => "int too large to convert to float"
    | BadDsn => "Unsupported scheme ''"
    | RequestException what => what
    end;
  py_float_str := fun _ => false;
  sentry_accepts := fun _ => true
|}.

Definition self : ComplianceMonitor :=
  {| prometheus_gateway := "localhost:9091";
     api_base := "http://localhost:8080" |}.

Definition violation (state user_id timestamp : string) : json :=
  JDict [("type", JStr "STATE_RESTRICTION"); ("state", JStr state);
         ("user_id", JStr user_id); ("timestamp", JStr timestamp)].

Definition report (balanced : bool) : json :=
  JDict [("balanced", JBool balanced); ("imbalance", JInt 250);
         ("affected_users", JList [JStr "u1"; JStr "u7"])].

(** Answers of the three endpoints; everything else succeeds. *)
Definition serve (violations kyc integrity : outcome json)
    (key : option string) (post push : outcome unit) : cycle_env :=
  {| environ := fun name =>
       if String.eqb name "PAGERDUTY_KEY" then key else None;
     http_get_json := fun url =>
       if String.eqb url (violations_url self) then violations
       else if String.eqb url (kyc_url self) then kyc
       else integrity;
     http_post := fun _ _ => post;
     gateway_push := fun _ _ _ => push;
     utcnow_isoformat := "2024-01-01T00:00:00" |}.

(** The end-to-end example of the specification. *)
Definition quiet : cycle_env :=
  serve (Ret (JList [violation "TX" "u1" "T"]))
        (Ret (JDict [("size", JInt 50)]))
        (Ret (JDict [("balanced", JBool true)])) None (Ret tt) (Ret tt).

(** Three state restrictions among other entries. *)
Definition mixed : list json :=
  [violation "TX" "u1" "T1";
   JDict [("type", JStr "DEPOSIT_LIMIT"); ("user_id", JStr "u9")];
   violation "CA" "u2" "T2";
   violation "TX" "u3" "T3"].

(** A busy cycle: a backlog of 150, an unbalanced ledger, paging works. *)
Definition busy : cycle_env :=
  serve (Ret (JList mixed)) (Ret (JDict [("size", JInt 150)]))
        (Ret (report false)) (Some "key") (Ret tt) (Ret tt).


(** The same without a paging credential. *)
Definition no_key : cycle_env :=
  serve (Ret (JList mixed)) (Ret (JDict [("size", JInt 150)]))
        (Ret (report false)) None (Ret tt) (Ret tt).

(** The monitored service cannot be reached. *)
Definition offline : cycle_env :=
  serve (Raise (RequestException "connection refused"))
        (Raise (RequestException "connection refused"))
        (Raise (RequestException "connection refused")) None (Ret tt) (Ret tt).

(** A state restriction without user_id and timestamp. *)
Definition truncated : json :=
  JDict [("type", JStr "STATE_RESTRICTION"); ("state", JStr "CA")].

Definition broken : cycle_env :=
  serve (Ret (JList ([violation "TX" "u1" "T1"] ++ truncated
                     :: [violation "TX" "u3" "T3"])))
        (Ret (JDict [("size", JInt 150)]))
        (Ret (report true)) None (Ret tt) (Ret tt).

(** The violations endpoint answers with an object instead of a list. *)
Definition wrapped : cycle_env :=
  serve (Ret (JDict [("violations", JList [violation "TX" "u1" "T1"])]))
        (Ret (JDict [("size", JInt 150)]))
        (Ret (report true)) None (Ret tt) (Ret tt).

(** The violations endpoint answers with an empty object. *)
Definition empty_object : cycle_env :=
  serve (Ret (JDict [])) (Ret (JDict [("size", JInt 7)]))
        (Ret (report true)) None (Ret tt) (Ret tt).

(** The queue-size endpoint answers without a size. *)
Definition sizeless : cycle_env :=
  serve (Ret (JList mixed)) (Ret (JDict [("count", JInt 150)]))
        (Ret (report true)) None (Ret tt) (Ret tt).

(** The queue-size endpoint answers with the size as text. *)
Definition textual : cycle_env :=
  serve (Ret (JList mixed)) (Ret (JDict [("size", JStr "150")]))
        (Ret (report true)) None (Ret tt) (Ret tt).

(** An unbalanced ledger reported without the affected users. *)
Definition partial_report : cycle_env :=
  serve (Ret (JList [])) (Ret (JDict [("size", JInt 7)]))
        (Ret (JDict [("balanced", JBool false); ("imbalance", JInt 250)]))
        (Some "key") (Ret tt) (Ret tt).

(** A ledger whose balance flag is null. *)
Definition null_flag : cycle_env :=
  serve (Ret (JList [])) (Ret (JDict [("size", JInt 7)]))
        (Ret (JDict [("balanced", JNull); ("imbalance", JInt 250);
                     ("affected_users", JList [])]))
        (Some "key") (Ret tt) (Ret tt).

(** A runtime whose [float] accepts the text 150. *)
Definition numeric : PyRuntime :=
  {| py_repr := fun _ => "[...]";
     py_exn_str := fun _ => "error";
     py_float_str := fun s => String.eqb s "150";
     sentry_accepts := fun _ => true |}.

(** A runtime whose Sentry client rejects the DSN not-a-dsn. *)
Definition strict : PyRuntime :=
  {| py_repr := fun _ => "[...]";
     py_exn_str := fun _ => "error";
     py_float_str := fun _ => false;
     sentry_accepts := fun dsn =>
       match dsn with
       | Some text => negb (String.eqb text "not-a-dsn")
       | None => true
       end |}.

(** A start-up environment with that DSN. *)
Definition bad_dsn : cycle_env :=
  {| environ := fun name =>
       if String.eqb name "SENTRY_DSN" then Some "not-a-dsn" else None;
     http_get_json := fun _ => Raise (RequestException "connection refused");
     http_post := fun _ _ => Ret tt;
     gateway_push := fun _ _ _ => Ret tt;
     utcnow_isoformat := "2024-01-01T00:00:00" |}.

(** A queue of 10^400 cases, and one of 2^53 + 1. *)
Definition huge : cycle_env :=
  serve (Ret (JList mixed)) (Ret (JDict [("size", JInt (10 ^ 400))]))
        (Ret (report true)) None (Ret tt) (Ret tt).

Definition uneven : cycle_env :=
  serve (Ret (JList mixed)) (Ret (JDict [("size", JInt (2 ^ 53 + 1))]))
        (Ret (report true)) None (Ret tt) (Ret tt).

End Demo.

(** What one well-formed state-restriction entry sends to the
    error-tracking sink. *)
Definition notification `{PyRuntime} (v : json)
    : string * list (string * json) :=
  ("State restriction violation: " +:+ py_str (state_of v),
   [("user_id", user_id_of v); ("state", state_of v);
    ("timestamp", timestamp_of v)]).

(** The label under which an entry is counted. *)
Definition label_of `{PyRuntime} (v : json) : string := py_str (state_of v).

Definition with_state_violations (m : gmap string Z) (r : registry) : registry :=
  {| state_violations := m;
     kyc_queue_size := kyc_queue_size r;
     daily_deposits := daily_deposits r |}.

(** The registry after incrementing the listed labels, in order. *)
Definition bumps (labels : list string) (r : registry) : registry :=
  with_state_violations (foldl inc_label (state_violations r) labels) r.

(** How often [label] occurs in [labels]. *)
Definition occurrences (label : string) (labels : list string) : Z :=
  Z.of_nat (length (List.filter (String.eqb label) labels)).

(** The event is a notification of the given level. *)
Definition message_only (level : string) (ev : event) : Prop :=
  exists message extras, ev = CaptureMessage message level extras.

(** A paging credential is configured: the variable is set and not
    empty. *)
Definition configured (env : cycle_env) : bool :=
  match environ env "PAGERDUTY_KEY" with
  | Some key => negb (String.eqb key "")
  | None => false
  end.

Definition pagerduty_url : string := "https://events.pagerduty.com/v2/enqueue".

Definition imbalance_of (report : json) : json :=
  default JNull (field report "imbalance").
Definition affected_users_of (report : json) : json :=
  default JNull (field report "affected_users").

(** The fatal notification sent for an unbalanced report. *)
Definition fatal_notification (report : json) : string * list (string * json) :=
  ("CRITICAL: Ledger imbalance detected",
   [("imbalance_amount", imbalance_of report);
    ("affected_users", affected_users_of report)]).


(** An exception [e] is raised during the violations fetch, during the
    KYC fetch, or by the metrics push. *)
Inductive fails_in_flow `{PyRuntime} (self : ComplianceMonitor)
    (env : cycle_env) (r : registry) (e : exn) : Prop :=
| fails_violations_fetch :
    http_get_json env (violations_url self) = Raise e ->
    fails_in_flow self env r e
| fails_kyc_fetch :
    result (check_state_violations self env r) = Ret tt ->
    http_get_json env (kyc_url self) = Raise e ->
    fails_in_flow self env r e
| fails_metrics_push :
    let b := (check_state_violations self ;; check_kyc_queue self) env r in
    result b = Ret tt ->
    gateway_push env (prometheus_gateway self) "compliance_monitor" (final b)
    = Raise e ->
    fails_in_flow self env r e.

(** What one cycle adds to the sample of [label], measured on an empty
    registry. *)
Definition gained `{PyRuntime} (self : ComplianceMonitor) (env : cycle_env)
    (label : string) : Z :=
  sample_at (state_violations (final (cycle self env empty_registry))) label.

(** What a run of cycles adds to the sample of [label]. *)
Definition total_gained `{PyRuntime} (self : ComplianceMonitor)
    (cycles : list cycle_env) (label : string) : Z :=
  foldr (fun env acc => gained self env label + acc) 0 cycles.

(** The pauses of the loop and the environment variables read. *)
Definition slept (ev : event) : option Z :=
  match ev with Sleep seconds => Some seconds | _ => None end.

Definition sleeps (t : list event) := omap slept t.
Definition env_reads (t : list event) := omap env_read t.

(** A violations answer the loop cannot walk: neither a list, nor an
    object or a string without content. *)
Definition not_iterable_as_violations (v : json) : bool :=
  match v with
  | JList _ => false
  | JDict [] => false
  | JStr EmptyString => false
  | _ => true
  end.

(** The monitor [__init__] builds from the environment of [boot]. *)
Definition configured_monitor (boot : cycle_env) : ComplianceMonitor :=
  {| prometheus_gateway :=
       default "localhost:9091" (environ boot "PROMETHEUS_GATEWAY");
     api_base := default "http://localhost:8080" (environ boot "API_BASE") |}.

(** ** Basic facts *)

Section Basics.
Context `{PyRuntime}.

Lemma getitem_field v key x : field v key = Some x -> getitem v key = Ret x.
Proof.
  destruct v; simpl; try discriminate.
  intros ->. reflexivity.
Qed.

Lemma getitem_missing fields key :
  dict_get fields key = None -> getitem (JDict fields) key = Raise (KeyError key).
Proof. simpl. intros ->. reflexivity. Qed.

Lemma field_is_dict v key x : field v key = Some x -> exists fields, v = JDict fields.
Proof. destruct v; simpl; try discriminate. eauto. Qed.

Lemma with_state_violations_id r : with_state_violations (state_violations r) r = r.
Proof. destruct r; reflexivity. Qed.

Lemma bumps_nil r : bumps [] r = r.
Proof. apply with_state_violations_id. Qed.

Lemma bumps_cons label labels r :
  bumps (label :: labels) r = bumps labels (bumps [label] r).
Proof. reflexivity. Qed.

Lemma bumps_app l1 l2 r : bumps (l1 ++ l2) r = bumps l2 (bumps l1 r).
Proof. unfold bumps. simpl. rewrite foldl_app. reflexivity. Qed.

Lemma sample_at_inc_label m label l :
  sample_at (inc_label m label) l
  = sample_at m l + (if String.eqb l label then 1 else 0).
Proof.
  unfold inc_label, sample_at.
  destruct (String.eqb_spec l label) as [->|Hne].
  - rewrite lookup_insert_eq. reflexivity.
  - rewrite lookup_insert_ne by congruence. simpl. lia.
Qed.

Lemma sample_at_foldl labels : forall m l,
  sample_at (foldl inc_label m labels) l = sample_at m l + occurrences l labels.
Proof.
  unfold occurrences.
  induction labels as [|label labels IH]; intros m l; simpl.
  - lia.
  - rewrite IH, sample_at_inc_label.
    destruct (String.eqb l label); simpl length; lia.
Qed.

(** A trace made of notifications of one level shows nothing to the
    other observers. *)
Lemma quiet_messages level (t : list event) :
  Forall (message_only level) t ->
  pushes t = [] /\ fetches t = [] /\ captured t = [] /\ printed t = []
  /\ posts t = [] /\ paging_calls t = []
  /\ forall other, other <> level -> messages_at other t = [].
Proof.
  unfold pushes, fetches, captured, printed, posts, paging_calls, messages_at.
  induction 1 as [|ev t (message & extras & ->) _ IH]; [auto 10|].
  destruct IH as (P & F & C & R & O & G & W).
  cbn. rewrite P, F, C, R, O. repeat split; auto.
  intros other Hne. specialize (W other Hne).
  destruct (String.eqb_spec level other) as [->|_]; [congruence|exact W].
Qed.

Lemma occurrences_nonneg l labels : 0 <= occurrences l labels.
Proof. unfold occurrences. lia. Qed.

Lemma occurrences_app l l1 l2 :
  occurrences l (l1 ++ l2) = occurrences l l1 + occurrences l l2.
Proof. unfold occurrences. rewrite List.filter_app, length_app. lia. Qed.

End Basics.

(** ** The loop over the violations *)

Section Loop.
Context `{PyRuntime}.

Ltac run_unfold :=
  unfold process_violation, state_violations_inc, capture_message, emit,
    modify, lift, bind, ret; simpl.

(** An entry that is not tagged as a state restriction is skipped. *)
Lemma process_violation_other v t env r :
  field v "type" = Some t -> py_eq_str t "STATE_RESTRICTION" = false ->
  process_violation v env r = Run (Ret tt) r [].
Proof.
  intros Ht Hne. run_unfold.
  rewrite (getitem_field _ _ _ Ht). simpl. rewrite Hne. reflexivity.
Qed.

(** A well-formed state restriction is counted, then notified. *)
Lemma process_violation_restricted v env r :
  is_state_restriction v = true -> violation_ok v = true ->
  process_violation v env r
  = Run (Ret tt) (bumps [label_of v] r)
        [CaptureMessage (fst (notification v)) "error" (snd (notification v))].
Proof.
  unfold is_state_restriction, violation_ok.
  destruct (field v "type") as [t|] eqn:Ht; [|discriminate].
  intros Hsr. rewrite Hsr.
  rewrite !andb_true_iff, !bool_decide_eq_true.
  intros [[[s Hs] [u Hu]] [ts Hts]].
  run_unfold.
  rewrite (getitem_field _ _ _ Ht). simpl. rewrite Hsr.
  rewrite (getitem_field _ _ _ Hs). simpl.
  rewrite (getitem_field _ _ _ Hu). simpl.
  rewrite (getitem_field _ _ _ Hts). simpl.
  unfold notification, label_of, state_of, user_id_of, timestamp_of.
  rewrite Hs, Hu, Hts. reflexivity.
Qed.

Lemma violation_ok_other v :
  violation_ok v = true -> is_state_restriction v = false ->
  exists t, field v "type" = Some t /\ py_eq_str t "STATE_RESTRICTION" = false.
Proof.
  unfold violation_ok, is_state_restriction.
  destruct (field v "type") as [t|]; [|discriminate].
  intros _ Hne. eauto.
Qed.

(** Over well-formed entries the loop runs to its end: it counts and
    notifies the state restrictions, in order, and nothing else. *)
Lemma for_each_ok vs : forall env r,
  Forall (fun v => violation_ok v = true) vs ->
  for_each vs process_violation env r
  = Run (Ret tt) (bumps (map label_of (restricted vs)) r)
        (map (fun v => CaptureMessage (fst (notification v)) "error"
                         (snd (notification v)))
             (restricted vs)).
Proof.
  induction vs as [|v vs IH]; intros env r Hok.
  - simpl. unfold ret. rewrite bumps_nil. reflexivity.
  - inversion Hok as [|? ? Hv Hvs]; subst.
    simpl for_each. unfold bind at 1.
    unfold restricted in *. simpl List.filter.
    destruct (is_state_restriction v) eqn:Hsr.
    + rewrite (process_violation_restricted _ _ _ Hsr Hv). simpl.
      rewrite (IH _ _ Hvs). simpl. reflexivity.
    + destruct (violation_ok_other _ Hv Hsr) as (t & Ht & Hne).
      rewrite (process_violation_other _ _ _ _ Ht Hne). simpl.
      rewrite (IH _ _ Hvs). reflexivity.
Qed.

(** Whatever the entry, processing it increments some labels (none or
    one) and leaves the rest of the registry alone; which labels, what is
    sent and how it ends do not depend on the registry. *)
Lemma process_violation_shape v :
  exists labels res t, forall env r,
    process_violation v env r = Run res (bumps labels r) t
    /\ Forall (message_only "error") t.
Proof.
  unfold process_violation, state_violations_inc, capture_message, emit,
    modify, lift, bind, ret.
  destruct (getitem v "type") as [t|e] eqn:Ht; simpl.
  2:{ exists [], (Raise e), []. intros. rewrite bumps_nil. auto. }
  destruct (py_eq_str t "STATE_RESTRICTION"); simpl.
  2:{ exists [], (Ret tt), []. intros. rewrite bumps_nil. auto. }
  destruct (getitem v "state") as [s|e] eqn:Hs; simpl.
  2:{ exists [], (Raise e), []. intros. rewrite bumps_nil. auto. }
  destruct (getitem v "user_id") as [u|e] eqn:Hu; simpl.
  2:{ exists [py_str s], (Raise e), []. intros. auto. }
  destruct (getitem v "timestamp") as [ts|e] eqn:Hts; simpl.
  2:{ exists [py_str s], (Raise e), []. intros. auto. }
  eexists [py_str s], (Ret tt), _. intros. split; [reflexivity|].
  repeat constructor. unfold message_only. eauto.
Qed.

Lemma for_each_shape vs :
  exists labels res t, forall env r,
    for_each vs process_violation env r = Run res (bumps labels r) t
    /\ Forall (message_only "error") t.
Proof.
  induction vs as [|v vs (labels & res & t & IH)].
  - exists [], (Ret tt), []. intros. simpl. unfold ret.
    rewrite bumps_nil. auto.
  - destruct (process_violation_shape v) as (l1 & res1 & t1 & Hv).
    destruct res1 as [[]|e].
    + exists (l1 ++ labels), res, (t1 ++ t). intros env r.
      destruct (Hv env r) as (E1 & M1).
      destruct (IH env (bumps l1 r)) as (E2 & M2).
      simpl for_each. unfold bind. rewrite E1. simpl. rewrite E2. simpl.
      rewrite bumps_app. split; [reflexivity|]. apply Forall_app; auto.
    + exists l1, (Raise e), t1. intros env r.
      destruct (Hv env r) as (E1 & M1).
      simpl for_each. unfold bind. rewrite E1. simpl. auto.
Qed.

End Loop.

(** ** The three blocks and the two error boundaries *)

Section Blocks.
Context `{PyRuntime}.

(** The violations block: one fetch, then the loop. *)
Lemma check_state_violations_shape self env :
  exists labels res t, forall r,
    check_state_violations self env r
    = Run res (bumps labels r) (HttpGet (violations_url self) :: t)
    /\ Forall (message_only "error") t.
Proof.
  unfold check_state_violations, requests_get_json, lift, bind.
  fold (violations_url self). simpl.
  destruct (http_get_json env (violations_url self)) as [v|e]; simpl.
  2:{ exists [], (Raise e), []. intros. rewrite bumps_nil. auto. }
  destruct (py_iter v) as [items|e]; simpl.
  2:{ exists [], (Raise e), []. intros. rewrite bumps_nil. auto. }
  destruct (for_each_shape items) as (labels & res & t & Hloop).
  exists labels, res, t. intros r.
  destruct (Hloop env r) as (E & Hrest).
  rewrite E. simpl. destruct res; auto.
Qed.

(** With a list of well-formed entries the violations block completes. *)
Lemma check_state_violations_ok self env r vs :
  http_get_json env (violations_url self) = Ret (JList vs) ->
  Forall (fun v => violation_ok v = true) vs ->
  check_state_violations self env r
  = Run (Ret tt) (bumps (map label_of (restricted vs)) r)
        (HttpGet (violations_url self)
         :: map (fun v => CaptureMessage (fst (notification v)) "error"
                            (snd (notification v)))
                (restricted vs)).
Proof.
  intros Hget Hok.
  unfold check_state_violations, requests_get_json, lift, bind.
  fold (violations_url self). simpl. rewrite Hget. simpl.
  rewrite (for_each_ok _ _ _ Hok). reflexivity.
Qed.

(** The queue block touches the gauge only; after its fetch it sends
    warnings only. *)
Lemma check_kyc_queue_frame self env r :
  let b := check_kyc_queue self env r in
  state_violations (final b) = state_violations r
  /\ daily_deposits (final b) = daily_deposits r
  /\ exists t, trace b = HttpGet (kyc_url self) :: t
              /\ Forall (message_only "warning") t.
Proof.
  unfold check_kyc_queue, kyc_queue_size_set, requests_get_json,
    capture_message, emit, modify, lift, bind, ret.
  fold (kyc_url self). simpl.
  destruct (http_get_json env (kyc_url self)) as [kyc|e]; simpl.
  2:{ eauto. }
  destruct (getitem kyc "size") as [q|e]; simpl.
  2:{ eauto. }
  destruct (to_sample q) as [x|e]; simpl.
  2:{ eauto. }
  destruct (py_gt_int q 100) as [[]|e]; simpl; repeat split; eauto.
  eexists. split; [reflexivity|]. repeat constructor.
  unfold message_only. eauto.
Qed.


(** The queue block on an integer size that [float] converts. *)
Lemma check_kyc_queue_int self env r kyc n d :
  http_get_json env (kyc_url self) = Ret kyc ->
  field kyc "size" = Some (JInt n) ->
  float_of_int n = Some d ->
  check_kyc_queue self env r
  = Run (Ret tt)
        {| state_violations := state_violations r;
           kyc_queue_size := Exact d;
           daily_deposits := daily_deposits r |}
        (HttpGet (kyc_url self)
         :: if 100 <? n
            then [CaptureMessage
                    ("KYC queue backlog: " +:+ pretty n +:+ " cases pending")
                    "warning" []]
            else []).
Proof.
  intros Hget Hsize Hfloat.
  unfold check_kyc_queue, kyc_queue_size_set, requests_get_json,
    capture_message, emit, modify, lift, bind, ret.
  fold (kyc_url self). cbn [result final trace]. rewrite Hget.
  cbn [result final trace].
  rewrite (getitem_field _ _ _ Hsize). cbn [result final trace to_sample].
  rewrite Hfloat. cbn [result final trace py_gt_int py_str].
  destruct (100 <? n); reflexivity.
Qed.


(** [check_compliance_violations] in terms of what its [try] body did. *)
Lemma check_compliance_violations_unfold self env r :
  check_compliance_violations self env r
  = let b := compliance_checks self env r in
    match result b with
    | Ret _ => b
    | Raise e =>
        Run (Ret tt) (final b)
          (trace b ++ [CaptureException e;
                       Print ("Error in compliance check: " +:+ py_exn_str e)])
    end.
Proof.
  unfold check_compliance_violations, try_except. simpl.
  destruct (result (compliance_checks self env r)); reflexivity.
Qed.

(** No exception leaves [check_compliance_violations]. *)
Lemma check_compliance_violations_returns self env r :
  result (check_compliance_violations self env r) = Ret tt.
Proof.
  rewrite check_compliance_violations_unfold. simpl.
  destruct (result (compliance_checks self env r)) as [[]|e] eqn:E; auto.
Qed.

(** The [try] body, block by block. *)
Lemma compliance_checks_unfold self env r :
  compliance_checks self env r
  = let a := check_state_violations self env r in
    match result a with
    | Raise e => Run (Raise e) (final a) (trace a)
    | Ret _ =>
        let b := check_kyc_queue self env (final a) in
        match result b with
        | Raise e => Run (Raise e) (final b) (trace a ++ trace b)
        | Ret _ =>
            Run (gateway_push env (prometheus_gateway self)
                   "compliance_monitor" (final b))
                (final b)
                (trace a ++ trace b
                 ++ [PushToGateway (prometheus_gateway self)
                       "compliance_monitor" (final b)])
        end
    end.
Proof.
  unfold compliance_checks, push_metrics, push_to_gateway, bind. simpl.
  destruct (result (check_state_violations self env r)); [|reflexivity].
  destruct (result (check_kyc_queue self env _)); reflexivity.
Qed.

End Blocks.

(** ** State restrictions: counting and notifying *)

Section Violations.
Context `{PyRuntime}.

Lemma messages_at_error_notifications (vs : list json) :
  messages_at "error"
    (map (fun v => CaptureMessage (fst (notification v)) "error"
                     (snd (notification v))) vs)
  = map notification vs.
Proof.
  unfold messages_at.
  induction vs as [|v vs IH]; [reflexivity|].
  rewrite map_cons. change (omap ?f (?a :: ?l)) with (omap f [a] ++ omap f l).
  rewrite IH. reflexivity.
Qed.

Lemma messages_at_app level (t1 t2 : list event) :
  messages_at level (t1 ++ t2) = messages_at level t1 ++ messages_at level t2.
Proof. apply omap_app. Qed.

(** What [check_compliance_violations] leaves behind once the violations
    block has completed: the labelled family as that block left it, and
    no further error-level notification. *)
Lemma after_violations_block self env r a :
  check_state_violations self env r = a -> result a = Ret tt ->
  let x := check_compliance_violations self env r in
  state_violations (final x) = state_violations (final a)
  /\ messages_at "error" (trace x) = messages_at "error" (trace a).
Proof.
  intros Ha Hres. cbv zeta.
  rewrite check_compliance_violations_unfold, compliance_checks_unfold.
  rewrite Ha. cbv zeta. rewrite Hres.
  destruct (check_kyc_queue_frame self env (final a))
    as (Hsv & _ & tb' & Htb & Hwarn).
  destruct (quiet_messages _ _ Hwarn) as (_ & _ & _ & _ & _ & _ & Hother).
  assert (Herr : messages_at "error" (HttpGet (kyc_url self) :: tb') = []).
  { apply (Hother "error"). discriminate. }
  destruct (check_kyc_queue self env (final a)) as [resb fb tb].
  cbn [result final trace] in *. subst tb.
  destruct resb as [[]|e]; cbn [result final trace].
  - destruct (gateway_push env _ _ fb) as [[]|e]; cbn [result final trace];
      rewrite ?messages_at_app, Herr, ?app_nil_r; auto.
  - rewrite ?messages_at_app, Herr, ?app_nil_r; auto.
Qed.

(** C1.  When the violations endpoint answers with a list of Violation
    entries of which N are tagged STATE_RESTRICTION, one call of
    [check_compliance_violations] sends exactly N error-level
    notifications, the one of each such entry in order, each carrying the
    entry's user_id, state and timestamp as extras; and the labelled
    family is the result of N increments, one at each such entry's state,
    so that every label grows by the number of such entries with that
    state. *)
Theorem state_restrictions_counted_and_notified self env r vs :
  http_get_json env (violations_url self) = Ret (JList vs) ->
  Forall (fun v => violation_ok v = true) vs ->
  let x := check_compliance_violations self env r in
  let N := length (restricted vs) in
  messages_at "error" (trace x) = map notification (restricted vs)
  /\ length (messages_at "error" (trace x)) = N
  /\ state_violations (final x)
     = foldl inc_label (state_violations r) (map label_of (restricted vs))
  /\ length (map label_of (restricted vs)) = N
  /\ forall label,
       sample_at (state_violations (final x)) label
       = sample_at (state_violations r) label
         + occurrences label (map label_of (restricted vs)).
Proof.
  intros Hget Hok x N.
  pose proof (check_state_violations_ok self env r vs Hget Hok) as Ha.
  destruct (after_violations_block self env r _ Ha eq_refl) as [Hsv Herr].
  fold x in Hsv, Herr. simpl in Hsv, Herr.
  change (messages_at "error" (HttpGet (violations_url self) :: ?t))
    with (messages_at "error" t) in Herr.
  rewrite messages_at_error_notifications in Herr.
  split; [exact Herr|].
  split; [rewrite Herr; apply length_map|].
  split; [exact Hsv|].
  split; [apply length_map|].
  intros label. rewrite Hsv. apply sample_at_foldl.
Qed.

End Violations.

(** ** Ledger integrity and paging *)

Section Integrity.
Context `{PyRuntime}.

Lemma trigger_pagerduty_alert_unconfigured self title message env r :
  configured env = false ->
  trigger_pagerduty_alert self title message env r
  = Run (Ret tt) r [Getenv "PAGERDUTY_KEY"].
Proof.
  unfold configured, trigger_pagerduty_alert, getenv, bind, ret. simpl.
  destruct (environ env "PAGERDUTY_KEY") as [key|]; [|reflexivity].
  intros ->. reflexivity.
Qed.

Lemma trigger_pagerduty_alert_configured self title message env r :
  configured env = true ->
  exists key,
    environ env "PAGERDUTY_KEY" = Some key /\
    let body := pagerduty_event key title message (utcnow_isoformat env) in
    trigger_pagerduty_alert self title message env r
    = Run (http_post env pagerduty_url body) r
          [Getenv "PAGERDUTY_KEY"; HttpPost pagerduty_url body].
Proof.
  unfold configured, trigger_pagerduty_alert, getenv, utcnow, requests_post,
    bind, ret. simpl.
  destruct (environ env "PAGERDUTY_KEY") as [key|]; [|discriminate].
  intros ->. exists key. split; [reflexivity|]. simpl.
  destruct (http_post env _ _); reflexivity.
Qed.

(** The paging operation never touches the registry, reads its
    credential once and posts at most once. *)
Lemma trigger_pagerduty_alert_frame self title message env r :
  let p := trigger_pagerduty_alert self title message env r in
  final p = r
  /\ paging_calls (trace p) = ["PAGERDUTY_KEY"]
  /\ length (posts (trace p)) = (if configured env then 1 else 0)%nat
  /\ messages (trace p) = [] /\ captured (trace p) = []
  /\ pushes (trace p) = [] /\ fetches (trace p) = [].
Proof.
  cbv zeta. destruct (configured env) eqn:Hc.
  - destruct (trigger_pagerduty_alert_configured self title message env r Hc)
      as (key & _ & E).
    cbv zeta in E. rewrite E. simpl. auto 10.
  - rewrite (trigger_pagerduty_alert_unconfigured _ _ _ _ _ Hc). simpl. auto 10.
Qed.

(** The [try] body of [check_financial_integrity] on a balanced report. *)
Lemma integrity_checks_balanced self env r report :
  http_get_json env (integrity_url self) = Ret report ->
  field report "balanced" = Some (JBool true) ->
  integrity_checks self env r = Run (Ret tt) r [HttpGet (integrity_url self)].
Proof.
  intros Hget Hb.
  unfold integrity_checks, requests_get_json, lift, bind, ret.
  fold (integrity_url self). simpl. rewrite Hget. simpl.
  rewrite (getitem_field _ _ _ Hb). reflexivity.
Qed.

(** ... and on an unbalanced one: the fatal notification, then the paging
    operation. *)
Lemma integrity_checks_unbalanced self env r report :
  http_get_json env (integrity_url self) = Ret report ->
  integrity_ok report false ->
  let p := trigger_pagerduty_alert self "Ledger Imbalance"
             ("Imbalance of " +:+ py_str (imbalance_of report) +:+ " detected")
             env r in
  integrity_checks self env r
  = Run (result p) (final p)
        (HttpGet (integrity_url self)
         :: CaptureMessage (fst (fatal_notification report)) "fatal"
              (snd (fatal_notification report))
         :: trace p).
Proof.
  intros Hget [Hb Hfields].
  destruct (Hfields eq_refl) as [[amount Ha] [users Hu]].
  unfold integrity_checks, requests_get_json, capture_message, emit, lift,
    bind, ret.
  fold (integrity_url self). cbn. rewrite Hget. cbn.
  rewrite (getitem_field _ _ _ Hb). cbn.
  rewrite (getitem_field _ _ _ Ha). cbn.
  rewrite (getitem_field _ _ _ Hu). cbn.
  unfold fatal_notification, imbalance_of, affected_users_of.
  rewrite Ha, Hu. cbn.
  destruct (result (trigger_pagerduty_alert _ _ _ _ _)); reflexivity.
Qed.

(** [check_financial_integrity] in terms of what its [try] body did. *)
Lemma check_financial_integrity_unfold self env r :
  check_financial_integrity self env r
  = let b := integrity_checks self env r in
    match result b with
    | Ret _ => b
    | Raise e => Run (Ret tt) (final b) (trace b ++ [CaptureException e])
    end.
Proof.
  unfold check_financial_integrity, try_except, capture_exception, emit.
  destruct (result (integrity_checks self env r)); reflexivity.
Qed.

(** No exception leaves [check_financial_integrity]; it starts with its
    fetch, and leaves the registry as it found it. *)
Lemma check_financial_integrity_frame self env r :
  let y := check_financial_integrity self env r in
  result y = Ret tt /\ final y = r
  /\ (exists t, trace y = HttpGet (integrity_url self) :: t)
  /\ pushes (trace y) = []
  /\ messages_at "error" (trace y) = []
  /\ messages_at "warning" (trace y) = [].
Proof.
  cbn. rewrite check_financial_integrity_unfold.
  unfold integrity_checks, requests_get_json, capture_message, emit, lift,
    bind, ret.
  fold (integrity_url self). cbn.
  destruct (http_get_json env (integrity_url self)) as [report|e]; cbn.
  2:{ eauto 10. }
  destruct (getitem report "balanced") as [b|e]; cbn.
  2:{ eauto 10. }
  destruct (truthy b); cbn.
  1:{ eauto 10. }
  destruct (getitem report "imbalance") as [amount|e]; cbn.
  2:{ eauto 10. }
  destruct (getitem report "affected_users") as [users|e]; cbn.
  2:{ eauto 10. }
  match goal with
  | |- context [trigger_pagerduty_alert ?s ?t ?m ?e ?r0] =>
      destruct (trigger_pagerduty_alert_frame s t m e r0)
        as (Hf & _ & _ & Hm & _ & Hp & _);
      destruct (trigger_pagerduty_alert s t m e r0) as [resp fp tp]
  end.
  cbn in *. subst fp.
  assert (Herr : messages_at "error" tp = [] /\ messages_at "warning" tp = []).
  { clear -Hm. unfold messages, messages_at in *.
    induction tp as [|ev tp IH]; [auto|].
    destruct ev; try (apply IH; exact Hm); discriminate. }
  destruct Herr as [Herr Hwarn].
  unfold pushes, messages_at in *.
  destruct resp as [[]|e]; cbn;
    rewrite ?omap_app, ?Hp, ?Herr, ?Hwarn; cbn; eauto 10.
Qed.

End Integrity.

Section IntegrityClaims.
Context `{PyRuntime}.

(** C2.  On an IntegrityReport, [check_financial_integrity] sends the
    fatal notification, with the imbalance amount and the affected users
    in its extras, and calls the paging operation once, exactly when
    [balanced] is false; when [balanced] is true it sends no notification
    at all, never calls the paging operation and posts nothing. *)
Theorem ledger_imbalance_alerts self env r report balanced :
  http_get_json env (integrity_url self) = Ret report ->
  integrity_ok report balanced ->
  let x := check_financial_integrity self env r in
  messages (trace x)
  = (if balanced then []
     else [("CRITICAL: Ledger imbalance detected", "fatal")])
  /\ messages_at "fatal" (trace x)
     = (if balanced then [] else [fatal_notification report])
  /\ (balanced = false ->
      exists amount users,
        field report "imbalance" = Some amount
        /\ field report "affected_users" = Some users
        /\ snd (fatal_notification report)
           = [("imbalance_amount", amount); ("affected_users", users)])
  /\ length (paging_calls (trace x)) = (if balanced then 0 else 1)%nat
  /\ length (posts (trace x))
     = (if balanced then 0 else if configured env then 1 else 0)%nat
  /\ (length (messages_at "fatal" (trace x)) = 1%nat
      /\ length (paging_calls (trace x)) = 1%nat
      <-> balanced = false).
Proof.
  intros Hget Hok x. subst x.
  rewrite check_financial_integrity_unfold.
  destruct balanced.
  - destruct Hok as [Hb _].
    rewrite (integrity_checks_balanced _ _ _ _ Hget Hb). cbn.
    repeat split; try reflexivity; try discriminate.
    intros [Hlen _]. discriminate.
  - pose proof (integrity_checks_unbalanced _ _ r _ Hget Hok) as E.
    cbv zeta in E. rewrite E. clear E.
    match goal with
    | |- context [trigger_pagerduty_alert ?s ?t ?m ?e ?r0] =>
        destruct (trigger_pagerduty_alert_frame s t m e r0)
          as (_ & Hcalls & Hposts & Hmsg & _);
        destruct (trigger_pagerduty_alert s t m e r0) as [resp fp tp]
    end.
    cbn in Hcalls, Hposts, Hmsg.
    assert (Hfatal : messages_at "fatal" tp = []).
    { clear -Hmsg. unfold messages, messages_at in *.
      induction tp as [|ev tp IH]; [auto|].
      destruct ev; try (apply IH; exact Hmsg); discriminate. }
    assert (Hextras : exists amount users,
        field report "imbalance" = Some amount
        /\ field report "affected_users" = Some users
        /\ snd (fatal_notification report)
           = [("imbalance_amount", amount); ("affected_users", users)]).
    { destruct Hok as [_ Hfields].
      destruct (Hfields eq_refl) as [[amount Ha] [users Hu]].
      exists amount, users. unfold fatal_notification, imbalance_of,
        affected_users_of. rewrite Ha, Hu. auto. }
    unfold messages, messages_at, paging_calls, posts in *.
    destruct resp as [[]|e]; cbn;
      rewrite ?omap_app, ?List.filter_app, ?length_app,
        ?Hmsg, ?Hfatal, ?Hcalls, ?Hposts; cbn;
      (repeat split; auto; try lia).
Qed.

(** C6.  On an unbalanced IntegrityReport and without a paging
    credential, [check_financial_integrity] still sends the fatal
    notification, and no POST goes out. *)
Theorem no_credential_no_page self env r report :
  http_get_json env (integrity_url self) = Ret report ->
  integrity_ok report false ->
  configured env = false ->
  let x := check_financial_integrity self env r in
  messages_at "fatal" (trace x) = [fatal_notification report]
  /\ posts (trace x) = []
  /\ trace x
     = [HttpGet (integrity_url self);
        CaptureMessage (fst (fatal_notification report)) "fatal"
          (snd (fatal_notification report));
        Getenv "PAGERDUTY_KEY"].
Proof.
  intros Hget Hok Hkey x. subst x.
  rewrite check_financial_integrity_unfold.
  pose proof (integrity_checks_unbalanced _ _ r _ Hget Hok) as E.
  cbv zeta in E. rewrite E. clear E.
  rewrite (trigger_pagerduty_alert_unconfigured _ _ _ _ _ Hkey). cbn.
  auto.
Qed.


End IntegrityClaims.

(** ** The compliance check as a whole, the cycle and the loop *)

Section Cycle.
Context `{PyRuntime}.

Lemma cycle_unfold self env r :
  cycle self env r
  = let x := check_compliance_violations self env r in
    let y := check_financial_integrity self env (final x) in
    Run (Ret tt) (final y) (trace x ++ trace y ++ [Sleep 60]).
Proof.
  unfold cycle, sleep, emit, bind. cbv zeta.
  rewrite check_compliance_violations_returns.
  destruct (check_financial_integrity_frame self env
              (final (check_compliance_violations self env r)))
    as (Hres & _).
  cbv zeta in Hres. rewrite Hres. reflexivity.
Qed.

Lemma cycle_returns self env r : result (cycle self env r) = Ret tt.
Proof. rewrite cycle_unfold. reflexivity. Qed.

Lemma main_loop_cons self env rest r :
  main_loop self (env :: rest) r
  = let c := cycle self env r in
    let z := main_loop self rest (final c) in
    Run (result z) (final z) (trace c ++ trace z).
Proof. simpl main_loop. rewrite cycle_returns. reflexivity. Qed.

(** Anatomy of the [try] body of [check_compliance_violations]: which
    labels it increments depends on the answers only; it reports no
    exception, prints and posts nothing; and what it pushes, if it gets
    that far, is the registry it ends with. *)
Lemma compliance_checks_anatomy self env :
  exists labels, forall r,
    let b := compliance_checks self env r in
    state_violations (final b) = foldl inc_label (state_violations r) labels
    /\ captured (trace b) = [] /\ printed (trace b) = []
    /\ (pushes (trace b) = [] \/ pushes (trace b) = [final b]).
Proof.
  destruct (check_state_violations_shape self env) as (labels & res & t & Ha).
  exists labels. intros r. cbv zeta.
  rewrite compliance_checks_unfold. cbv zeta.
  destruct (Ha r) as (E & Hmsgs). rewrite E. clear E.
  cbn [result final trace].
  destruct (quiet_messages _ _ Hmsgs) as (P & _ & C & R & _).
  assert (Ht : captured (HttpGet (violations_url self) :: t) = []
               /\ printed (HttpGet (violations_url self) :: t) = []
               /\ pushes (HttpGet (violations_url self) :: t) = []).
  { auto. }
  destruct Ht as (C' & R' & P').
  destruct res as [[]|e]; cbn [result final trace]; [|auto].
  destruct (check_kyc_queue_frame self env (bumps labels r))
    as (Hsv & _ & tb & Htb & Hwarn).
  destruct (quiet_messages _ _ Hwarn) as (Pb & _ & Cb & Rb & _).
  assert (Hb : captured (HttpGet (kyc_url self) :: tb) = []
               /\ printed (HttpGet (kyc_url self) :: tb) = []
               /\ pushes (HttpGet (kyc_url self) :: tb) = []).
  { auto. }
  destruct Hb as (Cb' & Rb' & Pb').
  destruct (check_kyc_queue self env (bumps labels r)) as [resb fb tb0].
  cbn [result final trace] in *. subst tb0.
  unfold captured, printed, pushes in *.
  destruct resb as [[]|e]; cbn [result final trace];
    rewrite ?omap_app, ?C', ?R', ?P', ?Cb', ?Rb', ?Pb'; auto.
Qed.

(** The same for [check_compliance_violations], whose handler adds the
    report and the printed line when the body raised. *)
Lemma check_compliance_violations_anatomy self env :
  exists labels, forall r,
    let x := check_compliance_violations self env r in
    let b := compliance_checks self env r in
    state_violations (final x) = foldl inc_label (state_violations r) labels
    /\ final x = final b
    /\ (pushes (trace x) = [] \/ pushes (trace x) = [final x])
    /\ match result b with
       | Ret _ => captured (trace x) = [] /\ printed (trace x) = []
       | Raise e =>
           captured (trace x) = [e]
           /\ printed (trace x)
              = ["Error in compliance check: " +:+ py_exn_str e]
       end.
Proof.
  destruct (compliance_checks_anatomy self env) as (labels & Hb).
  exists labels. intros r. cbv zeta.
  destruct (Hb r) as (Hsv & C & R & P). cbv zeta in *.
  rewrite check_compliance_violations_unfold. cbv zeta.
  destruct (compliance_checks self env r) as [resb fb tb].
  cbn [result final trace] in *.
  unfold captured, printed, pushes in *.
  destruct resb as [[]|e]; cbn [result final trace];
    rewrite ?omap_app, ?C, ?R; cbn; rewrite ?app_nil_r; auto.
Qed.

(** C4.  When an exception is raised during the violations fetch, the
    KYC fetch or the metrics push, [check_compliance_violations] reports
    it once to the error-tracking sink, prints its message, and returns
    normally; the cycle goes on with [check_financial_integrity] (its
    fetch is made) and the sleep, and the loop goes on with the next
    cycle. *)
Theorem compliance_failure_is_contained self env r e :
  fails_in_flow self env r e ->
  let x := check_compliance_violations self env r in
  let y := check_financial_integrity self env (final x) in
  result x = Ret tt
  /\ captured (trace x) = [e]
  /\ printed (trace x) = ["Error in compliance check: " +:+ py_exn_str e]
  /\ cycle self env r
     = Run (Ret tt) (final y) (trace x ++ trace y ++ [Sleep 60])
  /\ (exists t, trace y = HttpGet (integrity_url self) :: t)
  /\ forall rest,
       main_loop self (env :: rest) r
       = let c := cycle self env r in
         let z := main_loop self rest (final c) in
         Run (result z) (final z) (trace c ++ trace z).
Proof.
  intros Hfail x y.
  assert (Hraise : result (compliance_checks self env r) = Raise e).
  { rewrite compliance_checks_unfold. cbv zeta.
    destruct Hfail as [Hget | Ha Hget | b Hab Hpush]; [| |subst b].
    - unfold check_state_violations, requests_get_json, bind.
      fold (violations_url self). cbn. rewrite Hget. reflexivity.
    - rewrite Ha.
      unfold check_kyc_queue, requests_get_json, bind.
      fold (kyc_url self). cbn. rewrite Hget. reflexivity.
    - unfold bind in Hab, Hpush.
      destruct (result (check_state_violations self env r)) as [[]|e1];
        [|discriminate].
      cbn [result final] in Hab, Hpush.
      destruct (result (check_kyc_queue self env _)) as [[]|e2];
        [|discriminate].
      cbn [result]. exact Hpush. }
  destruct (check_compliance_violations_anatomy self env) as (labels & Hx).
  destruct (Hx r) as (_ & _ & _ & Hreport). cbv zeta in Hreport.
  rewrite Hraise in Hreport. destruct Hreport as [Hcap Hprint].
  destruct (check_financial_integrity_frame self env (final x))
    as (_ & _ & Hfetch & _).
  split; [apply check_compliance_violations_returns|].
  split; [exact Hcap|]. split; [exact Hprint|].
  split; [apply cycle_unfold|].
  split; [exact Hfetch|].
  intros rest. apply main_loop_cons.
Qed.

End Cycle.

Section Queue.
Context `{PyRuntime}.


End Queue.

Section Entries.
Context `{PyRuntime}.

Lemma run_eta {A} (x : run A) : Run (result x) (final x) (trace x) = x.
Proof. destruct x; reflexivity. Qed.

Lemma for_each_app l1 l2 body : forall env r,
  for_each (l1 ++ l2) body env r
  = (for_each l1 body ;; for_each l2 body) env r.
Proof.
  induction l1 as [|v l1 IH]; intros env r.
  - unfold bind, ret. cbn. apply eq_sym, run_eta.
  - cbn [for_each app]. unfold bind.
    destruct (body v env r) as [res1 f1 t1]. cbn [result final trace].
    destruct res1 as [[]|e]; cbn [result final trace]; [|reflexivity].
    rewrite IH. unfold bind.
    destruct (for_each l1 body env f1) as [res2 f2 t2].
    cbn [result final trace].
    destruct res2 as [[]|e]; cbn [result final trace];
      rewrite ?app_assoc; reflexivity.
Qed.

(** The violations block on a list: its fetch, then the loop. *)
Lemma check_state_violations_list self env r vs :
  http_get_json env (violations_url self) = Ret (JList vs) ->
  check_state_violations self env r
  = let l := for_each vs process_violation env r in
    Run (result l) (final l) (HttpGet (violations_url self) :: trace l).
Proof.
  intros Hget.
  unfold check_state_violations, requests_get_json, lift, bind.
  fold (violations_url self). cbn [result final trace].
  rewrite Hget. cbn [result final trace py_iter].
  destruct (result (for_each vs process_violation env r)); reflexivity.
Qed.

(** C10.  An entry whose type tag is not STATE_RESTRICTION is skipped:
    processing it changes no metric and sends nothing, whatever its other
    fields; and the loop over a list runs exactly as it does over the
    list without that entry. *)
Theorem other_entries_have_no_effect v t :
  field v "type" = Some t ->
  py_eq_str t "STATE_RESTRICTION" = false ->
  (forall env r, process_violation v env r = Run (Ret tt) r [])
  /\ (forall pre post env r,
        for_each (pre ++ v :: post) process_violation env r
        = for_each (pre ++ post) process_violation env r).
Proof.
  intros Ht Hne.
  assert (Hskip : forall env r, process_violation v env r = Run (Ret tt) r []).
  { intros. exact (process_violation_other v t env r Ht Hne). }
  split; [exact Hskip|].
  intros pre post env r. rewrite !for_each_app. unfold bind.
  destruct (result (for_each pre process_violation env r)) as [[]|e];
    [|reflexivity].
  cbn [for_each]. unfold bind. rewrite Hskip. cbn [result final trace].
  reflexivity.
Qed.

(** A state restriction that lacks one of its three fields raises
    [KeyError] at the first one missing; when it is [state] that is
    present, the entry has been counted by then. *)
Lemma process_violation_malformed bad env r :
  is_state_restriction bad = true -> violation_ok bad = false ->
  exists key,
    key ∈ ["state"; "user_id"; "timestamp"]
    /\ field bad key = None
    /\ process_violation bad env r
       = Run (Raise (KeyError key))
             (bumps (match field bad "state" with
                     | Some s => [py_str s]
                     | None => []
                     end) r)
             [].
Proof.
  unfold is_state_restriction, violation_ok.
  destruct (field bad "type") as [t|] eqn:Ht; [|discriminate].
  intros Hsr. rewrite Hsr. intros Hbad.
  destruct (field_is_dict _ _ _ Ht) as [fields ->].
  unfold process_violation, state_violations_inc, capture_message, emit,
    modify, lift, bind, ret.
  rewrite (getitem_field _ _ _ Ht). cbn [result final trace]. rewrite Hsr.
  cbn [field] in *.
  destruct (dict_get fields "state") as [s|] eqn:Hs.
  2:{ exists "state". rewrite (getitem_missing _ _ Hs). cbn [result final trace].
      rewrite bumps_nil. split; [set_solver|]. auto. }
  rewrite (getitem_field (JDict fields) "state" s Hs). cbn [result final trace].
  destruct (dict_get fields "user_id") as [u|] eqn:Hu.
  2:{ exists "user_id". rewrite (getitem_missing _ _ Hu).
      cbn [result final trace]. split; [set_solver|]. auto. }
  rewrite (getitem_field (JDict fields) "user_id" u Hu). cbn [result final trace].
  destruct (dict_get fields "timestamp") as [ts|] eqn:Hts.
  2:{ exists "timestamp". rewrite (getitem_missing _ _ Hts).
      cbn [result final trace]. split; [set_solver|]. auto. }
  exfalso. revert Hbad.
  rewrite !bool_decide_eq_true_2 by eauto. discriminate.
Qed.

(** C9.  When the violations list has well-formed entries followed by a
    state restriction lacking state, user_id or timestamp, the [KeyError]
    is caught, reported once and printed; the notifications and the
    increments of the entries before it stay (the malformed entry itself
    is counted when its state is present, and never notified); there is
    no KYC fetch, the gauge keeps its value, and nothing is pushed. *)
Theorem malformed_entry_keeps_earlier_effects self env r pre bad post :
  http_get_json env (violations_url self) = Ret (JList (pre ++ bad :: post)) ->
  Forall (fun v => violation_ok v = true) pre ->
  is_state_restriction bad = true ->
  violation_ok bad = false ->
  let x := check_compliance_violations self env r in
  result x = Ret tt
  /\ (exists key,
        key ∈ ["state"; "user_id"; "timestamp"]
        /\ field bad key = None
        /\ captured (trace x) = [KeyError key]
        /\ printed (trace x)
           = ["Error in compliance check: " +:+ py_exn_str (KeyError key)])
  /\ messages_at "error" (trace x) = map notification (restricted pre)
  /\ (forall label,
        sample_at (state_violations (final x)) label
        = sample_at (state_violations r) label
          + occurrences label (map label_of (restricted pre))
          + match field bad "state" with
            | Some s => if String.eqb label (py_str s) then 1 else 0
            | None => 0
            end)
  /\ (forall label,
        sample_at (state_violations r) label
        + occurrences label (map label_of (restricted pre))
        <= sample_at (state_violations (final x)) label)
  /\ fetches (trace x) = [violations_url self]
  /\ kyc_queue_size (final x) = kyc_queue_size r
  /\ pushes (trace x) = [].
Proof.
  intros Hget Hpre Hsr Hbad x.
  destruct (process_violation_malformed bad env
              (bumps (map label_of (restricted pre)) r) Hsr Hbad)
    as (key & Hkey & Hmissing & Ebad).
  set (extra := match field bad "state" with
                | Some s => [py_str s]
                | None => []
                end) in *.
  set (notes := map (fun v => CaptureMessage (fst (notification v)) "error"
                                (snd (notification v))) (restricted pre)).
  assert (Ex : x = Run (Ret tt)
                 (bumps extra (bumps (map label_of (restricted pre)) r))
                 (HttpGet (violations_url self) :: notes
                  ++ [CaptureException (KeyError key);
                      Print ("Error in compliance check: "
                             +:+ py_exn_str (KeyError key))])).
  { subst x.
    rewrite check_compliance_violations_unfold, compliance_checks_unfold.
    cbv zeta.
    assert (Ea : check_state_violations self env r
                 = Run (Raise (KeyError key))
                     (bumps extra (bumps (map label_of (restricted pre)) r))
                     (HttpGet (violations_url self) :: notes)).
    { rewrite (check_state_violations_list _ _ _ _ Hget). cbv zeta.
      rewrite for_each_app. unfold bind.
      rewrite (for_each_ok _ _ _ Hpre). cbn [result final trace for_each].
      unfold bind. rewrite Ebad. cbn [result final trace].
      rewrite app_nil_r. reflexivity. }
    rewrite Ea. cbn [result final trace]. reflexivity. }
  assert (Hnotes : Forall (message_only "error") notes).
  { subst notes. apply Forall_map, Forall_forall. intros v _.
    unfold message_only. eauto. }
  destruct (quiet_messages _ _ Hnotes) as (P & F & C & R & _).
  assert (Hsample : forall label,
    sample_at (state_violations (final x)) label
    = sample_at (state_violations r) label
      + occurrences label (map label_of (restricted pre))
      + match field bad "state" with
        | Some s => if String.eqb label (py_str s) then 1 else 0
        | None => 0
        end).
  { intros label. rewrite Ex. cbn [final]. unfold bumps at 1.
    cbn [state_violations with_state_violations bumps].
    rewrite !sample_at_foldl. subst extra.
    destruct (field bad "state") as [s|]; unfold occurrences; cbn.
    - destruct (String.eqb label (py_str s)); cbn; lia.
    - lia. }
  rewrite Ex. cbn [result final trace].
  split; [reflexivity|].
  split.
  { exists key. unfold captured, printed in *.
    change (HttpGet ?u :: ?l ++ ?m) with ([HttpGet u] ++ l ++ m).
    rewrite !omap_app, C, R. auto. }
  split.
  { change (HttpGet ?u :: ?l ++ ?m) with ([HttpGet u] ++ l ++ m).
    rewrite !messages_at_app. subst notes.
    rewrite messages_at_error_notifications. cbn. apply app_nil_r. }
  split.
  { intros label. specialize (Hsample label). rewrite Ex in Hsample. exact Hsample. }
  split.
  { intros label. specialize (Hsample label). rewrite Ex in Hsample.
    cbn [final] in Hsample. rewrite Hsample.
    destruct (field bad "state") as [s|]; [|lia].
    destruct (String.eqb label (py_str s)); lia. }
  split.
  { unfold fetches in *.
    change (HttpGet ?u :: ?l ++ ?m) with ([HttpGet u] ++ l ++ m).
    rewrite !omap_app, F. reflexivity. }
  split; [reflexivity|].
  unfold pushes in *.
  change (HttpGet ?u :: ?l ++ ?m) with ([HttpGet u] ++ l ++ m).
  rewrite !omap_app, P. reflexivity.
Qed.

End Entries.

Section Lifetime.
Context `{PyRuntime}.

(** One cycle increments labels that depend on the answers only, and
    pushes, if at all, the registry it ends with. *)
Lemma cycle_anatomy self env :
  exists labels, forall r,
    let c := cycle self env r in
    state_violations (final c) = foldl inc_label (state_violations r) labels
    /\ (pushes (trace c) = [] \/ pushes (trace c) = [final c]).
Proof.
  destruct (check_compliance_violations_anatomy self env) as (labels & Hx).
  exists labels. intros r. cbv zeta.
  destruct (Hx r) as (Hsv & _ & Hpush & _). cbv zeta in *.
  rewrite cycle_unfold. cbv zeta. cbn [result final trace].
  destruct (check_financial_integrity_frame self env
              (final (check_compliance_violations self env r)))
    as (_ & Hfinal & _ & Hquiet & _).
  cbv zeta in *. rewrite Hfinal.
  split; [exact Hsv|].
  unfold pushes in *. rewrite !omap_app, Hquiet. cbn. rewrite app_nil_r.
  exact Hpush.
Qed.

Lemma sample_at_empty label : sample_at ∅ label = 0.
Proof. unfold sample_at. rewrite lookup_empty. reflexivity. Qed.

Lemma cycle_gains self env r label :
  sample_at (state_violations (final (cycle self env r))) label
  = sample_at (state_violations r) label + gained self env label.
Proof.
  destruct (cycle_anatomy self env) as (labels & Hc).
  unfold gained.
  destruct (Hc r) as (-> & _). destruct (Hc empty_registry) as (-> & _).
  rewrite !sample_at_foldl. cbn [state_violations empty_registry].
  rewrite sample_at_empty. lia.
Qed.

Lemma gained_nonneg self env label : 0 <= gained self env label.
Proof.
  destruct (cycle_anatomy self env) as (labels & Hc).
  unfold gained. destruct (Hc empty_registry) as (-> & _).
  rewrite sample_at_foldl. cbn [state_violations empty_registry].
  rewrite sample_at_empty. pose proof (occurrences_nonneg label labels). lia.
Qed.

Lemma total_gained_nonneg self cycles label : 0 <= total_gained self cycles label.
Proof.
  induction cycles as [|env cycles IH]; cbn; [lia|].
  pose proof (gained_nonneg self env label). fold (total_gained self cycles label). lia.
Qed.

Lemma total_gained_app self c1 c2 label :
  total_gained self (c1 ++ c2) label
  = total_gained self c1 label + total_gained self c2 label.
Proof.
  unfold total_gained. induction c1 as [|env c1 IH]; cbn; [lia|].
  rewrite IH. lia.
Qed.

Lemma main_loop_gains self cycles : forall r label,
  sample_at (state_violations (final (main_loop self cycles r))) label
  = sample_at (state_violations r) label + total_gained self cycles label.
Proof.
  induction cycles as [|env cycles IH]; intros r label.
  - cbn. lia.
  - rewrite main_loop_cons. cbv zeta. cbn [final].
    rewrite IH, cycle_gains. cbn. fold (total_gained self cycles label). lia.
Qed.

(** Every registry pushed during a run of the loop lies between the
    registry the run started from and the one it ended with. *)
Lemma main_loop_pushes self cycles : forall r metrics label,
  metrics ∈ pushes (trace (main_loop self cycles r)) ->
  sample_at (state_violations r) label
  <= sample_at (state_violations metrics) label
  <= sample_at (state_violations (final (main_loop self cycles r))) label.
Proof.
  induction cycles as [|env cycles IH]; intros r metrics label.
  - cbn. intros Hin. inversion Hin.
  - rewrite main_loop_cons. cbv zeta. cbn [final trace].
    unfold pushes. rewrite omap_app. fold (pushes (trace (cycle self env r))).
    fold (pushes (trace (main_loop self cycles (final (cycle self env r))))).
    rewrite elem_of_app. intros [Hin|Hin].
    + destruct (cycle_anatomy self env) as (labels & Hc).
      destruct (Hc r) as (_ & [Hnone|Hone]); cbv zeta in *.
      * rewrite Hnone in Hin. inversion Hin.
      * rewrite Hone in Hin. apply list_elem_of_singleton in Hin. subst metrics.
        rewrite main_loop_gains, cycle_gains.
        pose proof (gained_nonneg self env label).
        pose proof (total_gained_nonneg self cycles label). lia.
    + specialize (IH _ _ label Hin).
      rewrite cycle_gains in IH.
      pose proof (gained_nonneg self env label). lia.
Qed.

(** C7.  The per-region metric is never reset and never decreases.  A
    cycle adds to every label what that cycle counted, on top of what
    was there; a run of cycles adds the sum of what its cycles counted;
    the value after any number of cycles is at most the value after
    more of them; and each push carries the registry as its cycle left
    it, so a value accumulated since the start. *)
Theorem state_violations_never_decrease self :
  (forall env r label,
     sample_at (state_violations r) label
     <= sample_at (state_violations (final (cycle self env r))) label)
  /\ (forall env r label,
        sample_at (state_violations (final (cycle self env r))) label
        = sample_at (state_violations r) label + gained self env label)
  /\ (forall cycles r label,
        sample_at (state_violations (final (main_loop self cycles r))) label
        = sample_at (state_violations r) label
          + total_gained self cycles label)
  /\ (forall earlier later r label,
        sample_at (state_violations (final (main_loop self earlier r))) label
        <= sample_at
             (state_violations (final (main_loop self (earlier ++ later) r)))
             label)
  /\ (forall env r,
        pushes (trace (cycle self env r)) = []
        \/ pushes (trace (cycle self env r)) = [final (cycle self env r)])
  /\ (forall cycles r metrics label,
        metrics ∈ pushes (trace (main_loop self cycles r)) ->
        sample_at (state_violations r) label
        <= sample_at (state_violations metrics) label
        <= sample_at (state_violations (final (main_loop self cycles r)))
             label).
Proof.
  split.
  { intros env r label. rewrite cycle_gains.
    pose proof (gained_nonneg self env label). lia. }
  split; [apply cycle_gains|].
  split; [intros; apply main_loop_gains|].
  split.
  { intros earlier later r label.
    rewrite !main_loop_gains, total_gained_app.
    pose proof (total_gained_nonneg self later label). lia. }
  split.
  { intros env r. destruct (cycle_anatomy self env) as (labels & Hc).
    destruct (Hc r) as (_ & Hpush). exact Hpush. }
  intros cycles r metrics label. apply main_loop_pushes.
Qed.

End Lifetime.

Section EndToEnd.
Context `{PyRuntime}.

Lemma init_fresh boot r0 :
  exists self, init boot r0 = Run (Ret self) empty_registry
                                [Getenv "PROMETHEUS_GATEWAY"; Getenv "API_BASE"].
Proof. eexists. reflexivity. Qed.

(** C8.  From a fresh monitor, with the violations endpoint answering
    the single state restriction of user u1 in TX at T, the queue-size
    endpoint answering 50 and the integrity endpoint answering balanced,
    one cycle sends exactly one error-level notification, no warning and
    no fatal one, and pushes once, with the TX sample at 1 and the gauge
    at 50. *)
Theorem end_to_end_cycle boot r0 env self :
  result (init boot r0) = Ret self ->
  http_get_json env (violations_url self)
  = Ret (JList [JDict [("type", JStr "STATE_RESTRICTION"); ("state", JStr "TX");
                       ("user_id", JStr "u1"); ("timestamp", JStr "T")]]) ->
  http_get_json env (kyc_url self) = Ret (JDict [("size", JInt 50)]) ->
  http_get_json env (integrity_url self) = Ret (JDict [("balanced", JBool true)]) ->
  let c := cycle self env (final (init boot r0)) in
  messages_at "error" (trace c)
  = [("State restriction violation: TX",
      [("user_id", JStr "u1"); ("state", JStr "TX"); ("timestamp", JStr "T")])]
  /\ messages_at "warning" (trace c) = []
  /\ messages_at "fatal" (trace c) = []
  /\ exists metrics,
       pushes (trace c) = [metrics]
       /\ state_violations metrics = {[ "TX" := 1 ]}
       /\ sample_at (state_violations metrics) "TX" = 1
       /\ kyc_queue_size metrics = Exact 50.
Proof.
  intros _ Hv Hk Hi c. subst c.
  destruct (init_fresh boot r0) as (self0 & ->). cbn [final].
  rewrite cycle_unfold. cbv zeta.
  rewrite check_financial_integrity_unfold. cbv zeta.
  rewrite (integrity_checks_balanced _ _ _ _ Hi eq_refl).
  rewrite check_compliance_violations_unfold, compliance_checks_unfold.
  cbv zeta.
  assert (Hok : Forall (fun v => violation_ok v = true)
            [JDict [("type", JStr "STATE_RESTRICTION"); ("state", JStr "TX");
                    ("user_id", JStr "u1"); ("timestamp", JStr "T")]]).
  { repeat constructor. }
  rewrite (check_state_violations_ok _ _ _ _ Hv Hok).
  cbn [result final trace].
  assert (Hsv : state_violations
                  (bumps (map label_of
                            (restricted
                               [JDict [("type", JStr "STATE_RESTRICTION");
                                       ("state", JStr "TX");
                                       ("user_id", JStr "u1");
                                       ("timestamp", JStr "T")]]))
                     empty_registry)
                = {[ "TX" := 1 ]}).
  { cbn. unfold inc_label. rewrite sample_at_empty. apply insert_empty. }
  remember (bumps _ empty_registry) as r1 eqn:Er1.
  rewrite (check_kyc_queue_int _ _ _ _ 50 50 Hk eq_refl eq_refl).
  cbn [result final trace].
  assert (Hone : sample_at ({[ "TX" := 1 ]} : gmap string Z) "TX" = 1).
  { unfold sample_at. rewrite lookup_singleton_eq. reflexivity. }
  destruct (gateway_push env _ _ _) as [[]|e]; cbn [result final trace];
    cbn; rewrite Hsv;
    (repeat split; try reflexivity);
    eexists; (split; [reflexivity|]); cbn [state_violations kyc_queue_size];
    auto.
Qed.

End EndToEnd.

(** ** The theorems at work on concrete answers *)

Section Examples.
#[local] Existing Instance Demo.runtime.

Lemma state_restrictions_counted_and_notified_witness :
  Forall (fun v => violation_ok v = true) Demo.mixed
  /\ length (messages_at "error"
               (trace (check_compliance_violations Demo.self Demo.busy
                         empty_registry))) = 3%nat
  /\ sample_at (state_violations
                  (final (check_compliance_violations Demo.self Demo.busy
                            empty_registry))) "TX" = 2.
Proof.
  assert (Hok : Forall (fun v => violation_ok v = true) Demo.mixed)
    by (repeat constructor).
  split; [exact Hok|].
  destruct (@state_restrictions_counted_and_notified Demo.runtime Demo.self
              Demo.busy empty_registry Demo.mixed eq_refl Hok)
    as (_ & Hcount & _ & _ & Hsample).
  split; [exact Hcount|].
  rewrite Hsample. vm_compute. reflexivity.
Defined.

Lemma ledger_imbalance_alerts_witness :
  integrity_ok (Demo.report false) false
  /\ messages_at "fatal"
       (trace (check_financial_integrity Demo.self Demo.busy empty_registry))
     = [("CRITICAL: Ledger imbalance detected",
         [("imbalance_amount", JInt 250);
          ("affected_users", JList [JStr "u1"; JStr "u7"])])]
  /\ length (paging_calls
               (trace (check_financial_integrity Demo.self Demo.busy
                         empty_registry))) = 1%nat.
Proof.
  assert (Hok : integrity_ok (Demo.report false) false).
  { split; [reflexivity|]. intros _. split; eexists; reflexivity. }
  split; [exact Hok|].
  destruct (@ledger_imbalance_alerts Demo.runtime Demo.self Demo.busy
              empty_registry (Demo.report false) false eq_refl Hok)
    as (_ & Hfatal & _ & Hcalls & _).
  split; [exact Hfatal | exact Hcalls].
Defined.


(** C3 as stated fails on integers beyond the doubles.  With a queue of
    10^400 the conversion in [Gauge.set] raises: the gauge is not set
    and no warning is sent, although the size is above 100.  With a
    queue of 2^53 + 1 the gauge holds 2^53, not the returned integer. *)
Lemma huge_queue_size_is_not_recorded :
  field (JDict [("size", JInt (10 ^ 400))]) "size" = Some (JInt (10 ^ 400))
  /\ captured (trace (check_compliance_violations Demo.self Demo.huge
                        empty_registry)) = [OverflowError]
  /\ ~ (kyc_queue_size
          (final (check_compliance_violations Demo.self Demo.huge
                    empty_registry)) = Exact (10 ^ 400))
  /\ ~ (length (messages_at "warning"
                  (trace (check_compliance_violations Demo.self Demo.huge
                            empty_registry))) = 1%nat)
  /\ kyc_queue_size
       (final (check_compliance_violations Demo.self Demo.uneven
                 empty_registry)) = Exact (2 ^ 53)
  /\ ~ (kyc_queue_size
          (final (check_compliance_violations Demo.self Demo.uneven
                    empty_registry)) = Exact (2 ^ 53 + 1)).
Proof.
  split; [reflexivity|].
  split; [vm_compute; reflexivity|].
  split; [intros E; vm_compute in E; discriminate|].
  split; [intros E; vm_compute in E; discriminate|].
  split; [vm_compute; reflexivity|].
  intros E; vm_compute in E; discriminate.
Qed.

Lemma compliance_failure_is_contained_witness :
  http_get_json Demo.offline (violations_url Demo.self)
  = Raise (RequestException "connection refused")
  /\ result (check_compliance_violations Demo.self Demo.offline empty_registry)
     = Ret tt
  /\ captured
       (trace (check_compliance_violations Demo.self Demo.offline
                 empty_registry))
     = [RequestException "connection refused"].
Proof.
  split; [reflexivity|].
  destruct (@compliance_failure_is_contained Demo.runtime Demo.self
              Demo.offline empty_registry
              (RequestException "connection refused")
              (fails_violations_fetch Demo.self Demo.offline empty_registry
                 (RequestException "connection refused") eq_refl))
    as (Hres & Hcap & _).
  split; [exact Hres | exact Hcap].
Defined.



Lemma no_credential_no_page_witness :
  configured Demo.no_key = false
  /\ length (messages_at "fatal"
               (trace (check_financial_integrity Demo.self Demo.no_key
                         empty_registry))) = 1%nat
  /\ posts (trace (check_financial_integrity Demo.self Demo.no_key
                     empty_registry)) = [].
Proof.
  split; [reflexivity|].
  assert (Hok : integrity_ok (Demo.report false) false).
  { split; [reflexivity|]. intros _. split; eexists; reflexivity. }
  destruct (@no_credential_no_page Demo.runtime Demo.self Demo.no_key
              empty_registry (Demo.report false) eq_refl Hok eq_refl)
    as (Hfatal & Hposts & _).
  split; [rewrite Hfatal; reflexivity | exact Hposts].
Defined.

Lemma end_to_end_cycle_witness :
  result (init Demo.quiet empty_registry) = Ret Demo.self
  /\ length (messages_at "error"
               (trace (cycle Demo.self Demo.quiet
                         (final (init Demo.quiet empty_registry))))) = 1%nat
  /\ exists metrics,
       pushes (trace (cycle Demo.self Demo.quiet
                        (final (init Demo.quiet empty_registry))))
       = [metrics]
       /\ sample_at (state_violations metrics) "TX" = 1
       /\ kyc_queue_size metrics = Exact 50.
Proof.
  split; [reflexivity|].
  destruct (@end_to_end_cycle Demo.runtime Demo.quiet empty_registry
              Demo.quiet Demo.self eq_refl eq_refl eq_refl eq_refl)
    as (Herr & _ & _ & metrics & Hpush & _ & Hsample & Hgauge).
  split; [rewrite Herr; reflexivity|].
  exists metrics. auto.
Defined.

Lemma malformed_entry_keeps_earlier_effects_witness :
  is_state_restriction Demo.truncated = true
  /\ violation_ok Demo.truncated = false
  /\ length (messages_at "error"
               (trace (check_compliance_violations Demo.self Demo.broken
                         empty_registry))) = 1%nat
  /\ sample_at (state_violations
                  (final (check_compliance_violations Demo.self Demo.broken
                            empty_registry))) "TX" = 1
  /\ pushes (trace (check_compliance_violations Demo.self Demo.broken
                     empty_registry)) = [].
Proof.
  split; [reflexivity|]. split; [reflexivity|].
  destruct (@malformed_entry_keeps_earlier_effects Demo.runtime Demo.self
              Demo.broken empty_registry
              [Demo.violation "TX" "u1" "T1"] Demo.truncated
              [Demo.violation "TX" "u3" "T3"]
              eq_refl ltac:(repeat constructor) eq_refl eq_refl)
    as (_ & _ & Herr & Hsample & _ & _ & _ & Hpush).
  split; [rewrite Herr; reflexivity|].
  split; [rewrite Hsample; vm_compute; reflexivity | exact Hpush].
Defined.

Lemma other_entries_have_no_effect_witness :
  field (JDict [("type", JStr "DEPOSIT_LIMIT"); ("user_id", JStr "u9")]) "type"
  = Some (JStr "DEPOSIT_LIMIT")
  /\ process_violation
       (JDict [("type", JStr "DEPOSIT_LIMIT"); ("user_id", JStr "u9")])
       Demo.busy empty_registry
     = Run (Ret tt) empty_registry [].
Proof.
  split; [reflexivity|].
  destruct (@other_entries_have_no_effect Demo.runtime
              (JDict [("type", JStr "DEPOSIT_LIMIT"); ("user_id", JStr "u9")])
              (JStr "DEPOSIT_LIMIT") eq_refl eq_refl)
    as (Hskip & _).
  apply Hskip.
Defined.

End Examples.

(** ** Further properties of the integrity check and of paging *)

Section IntegrityEdges.
Context `{PyRuntime}.

(** What the paging operation sends: the read of its credential, then at
    most the POST. *)
Lemma trigger_pagerduty_alert_trace self title message env r :
  let p := trigger_pagerduty_alert self title message env r in
  final p = r
  /\ (trace p = [Getenv "PAGERDUTY_KEY"] /\ result p = Ret tt
      \/ exists body,
           trace p = [Getenv "PAGERDUTY_KEY"; HttpPost pagerduty_url body]
           /\ result p = http_post env pagerduty_url body).
Proof.
  cbv zeta. destruct (configured env) eqn:Hc.
  - destruct (trigger_pagerduty_alert_configured self title message env r Hc)
      as (key & _ & E).
    cbv zeta in E. rewrite E. cbn [result final trace]. eauto.
  - rewrite (trigger_pagerduty_alert_unconfigured _ _ _ _ _ Hc).
    cbn [result final trace]. auto.
Qed.

(** X1.  When the integrity fetch fails, [check_financial_integrity]
    reports the exception once and does nothing else: no notification, no
    paging call, nothing printed, the registry as it was. *)
Theorem integrity_fetch_failure_is_reported self env r e :
  http_get_json env (integrity_url self) = Raise e ->
  check_financial_integrity self env r
  = Run (Ret tt) r [HttpGet (integrity_url self); CaptureException e].
Proof.
  intros Hget. rewrite check_financial_integrity_unfold.
  unfold integrity_checks, requests_get_json, bind.
  fold (integrity_url self). cbn [result final trace]. rewrite Hget.
  reflexivity.
Qed.

(** X2.  An unbalanced report that lacks the imbalance or the affected
    users raises no alert at all: the [KeyError] of the first missing
    field is reported, and there is no fatal notification, no paging
    call and no POST. *)
Theorem incomplete_report_raises_no_alert self env r report flag :
  http_get_json env (integrity_url self) = Ret report ->
  field report "balanced" = Some flag ->
  truthy flag = false ->
  field report "imbalance" = None \/ field report "affected_users" = None ->
  let key := match field report "imbalance" with
             | None => "imbalance"
             | Some _ => "affected_users"
             end in
  check_financial_integrity self env r
  = Run (Ret tt) r
        [HttpGet (integrity_url self); CaptureException (KeyError key)].
Proof.
  intros Hget Hflag Hfalsy Hmissing key. subst key.
  destruct (field_is_dict _ _ _ Hflag) as [fields ->].
  rewrite check_financial_integrity_unfold.
  unfold integrity_checks, requests_get_json, capture_message, emit, lift,
    bind, ret.
  fold (integrity_url self). cbn [result final trace]. rewrite Hget.
  cbn [result final trace].
  rewrite (getitem_field _ _ _ Hflag). cbn [result final trace].
  rewrite Hfalsy. cbn [negb]. cbn [field] in *.
  destruct (dict_get fields "imbalance") as [amount|] eqn:Ha.
  - destruct Hmissing as [Hm|Hm]; [discriminate|].
    rewrite (getitem_field (JDict fields) "imbalance" amount Ha).
    cbn [result final trace].
    rewrite (getitem_missing _ _ Hm). reflexivity.
  - rewrite (getitem_missing _ _ Ha). reflexivity.
Qed.

(** X3.  The alert follows the truth value of [balanced], not the
    boolean [false] alone: with imbalance and affected users present,
    the fatal notification is sent and the paging operation called
    exactly when [balanced] is falsy (false, null, 0, empty text, empty
    list or object). *)
Theorem alert_follows_truth_value self env r report flag amount users :
  http_get_json env (integrity_url self) = Ret report ->
  field report "balanced" = Some flag ->
  field report "imbalance" = Some amount ->
  field report "affected_users" = Some users ->
  let x := check_financial_integrity self env r in
  messages_at "fatal" (trace x)
  = (if truthy flag then []
     else [("CRITICAL: Ledger imbalance detected",
            [("imbalance_amount", amount); ("affected_users", users)])])
  /\ paging_calls (trace x)
     = (if truthy flag then [] else ["PAGERDUTY_KEY"]).
Proof.
  intros Hget Hflag Ha Hu x. subst x.
  rewrite check_financial_integrity_unfold.
  unfold integrity_checks, requests_get_json, capture_message, emit, lift,
    bind, ret.
  fold (integrity_url self). cbn [result final trace]. rewrite Hget.
  cbn [result final trace].
  rewrite (getitem_field _ _ _ Hflag). cbn [result final trace].
  destruct (truthy flag); cbn [negb]; [auto|].
  rewrite (getitem_field _ _ _ Ha). cbn [result final trace].
  rewrite (getitem_field _ _ _ Hu). cbn [result final trace].
  match goal with
  | |- context [trigger_pagerduty_alert ?s ?t ?m ?e ?r0] =>
      destruct (trigger_pagerduty_alert_trace s t m e r0) as (_ & Hp);
      destruct (trigger_pagerduty_alert s t m e r0) as [resp fp tp]
  end.
  cbn [result final trace] in *.
  destruct Hp as [[-> ->] | (body & -> & ->)].
  - cbn. auto.
  - destruct (http_post env pagerduty_url body) as [[]|e]; cbn; auto.
Qed.

(** The integrity check seen from outside: it returns, leaves the
    registry alone, fetches once, and sends neither pushes, prints,
    pauses, nor error or warning notifications; at most one exception is
    reported and at most one POST made. *)
Lemma check_financial_integrity_shape self env r :
  let y := check_financial_integrity self env r in
  result y = Ret tt /\ final y = r
  /\ fetches (trace y) = [integrity_url self]
  /\ pushes (trace y) = [] /\ printed (trace y) = [] /\ sleeps (trace y) = []
  /\ messages_at "error" (trace y) = []
  /\ messages_at "warning" (trace y) = []
  /\ (length (captured (trace y)) <= 1)%nat
  /\ (length (posts (trace y)) <= 1)%nat
  /\ (length (messages_at "fatal" (trace y)) <= 1)%nat.
Proof.
  cbv zeta. rewrite check_financial_integrity_unfold.
  unfold integrity_checks, requests_get_json, capture_message, emit, lift,
    bind, ret.
  fold (integrity_url self). cbn [result final trace].
  destruct (http_get_json env (integrity_url self)) as [report|e];
    cbn [result final trace].
  2:{ cbn. auto 15. }
  destruct (getitem report "balanced") as [b|e]; cbn [result final trace].
  2:{ cbn. auto 15. }
  destruct (truthy b); cbn [negb result final trace].
  1:{ cbn. auto 15. }
  destruct (getitem report "imbalance") as [amount|e]; cbn [result final trace].
  2:{ cbn. auto 15. }
  destruct (getitem report "affected_users") as [users|e];
    cbn [result final trace].
  2:{ cbn. auto 15. }
  match goal with
  | |- context [trigger_pagerduty_alert ?s ?t ?m ?e ?r0] =>
      destruct (trigger_pagerduty_alert_trace s t m e r0) as (Hf & Hp);
      destruct (trigger_pagerduty_alert s t m e r0) as [resp fp tp]
  end.
  cbn [result final trace] in *. subst fp.
  destruct Hp as [[-> ->] | (body & -> & ->)].
  - cbn. auto 15.
  - destruct (http_post env pagerduty_url body) as [[]|e]; cbn; auto 15.
Qed.

(** X4.  Whatever the answers, [check_financial_integrity] returns
    normally with the registry unchanged; it makes exactly one fetch,
    pushes and prints nothing, sends no error or warning notification,
    at most one fatal one, reports at most one exception and makes at
    most one POST. *)
Theorem integrity_check_is_contained self env r :
  let y := check_financial_integrity self env r in
  result y = Ret tt /\ final y = r
  /\ fetches (trace y) = [integrity_url self]
  /\ pushes (trace y) = [] /\ printed (trace y) = []
  /\ messages_at "error" (trace y) = []
  /\ messages_at "warning" (trace y) = []
  /\ (length (messages_at "fatal" (trace y)) <= 1)%nat
  /\ (length (captured (trace y)) <= 1)%nat
  /\ (length (posts (trace y)) <= 1)%nat.
Proof.
  destruct (check_financial_integrity_shape self env r)
    as (A & B & C & D & E & _ & F & G & I & J & K).
  cbv zeta in *. auto 15.
Qed.

(** X5.  With a credential and an unbalanced report, exactly one POST
    goes to the paging endpoint; its body routes by the credential, is a
    critical trigger from luckxpress-monitor summarised "Ledger
    Imbalance", and carries the rendered amount and the clock reading. *)
Theorem paging_post_payload self env r report key :
  http_get_json env (integrity_url self) = Ret report ->
  integrity_ok report false ->
  environ env "PAGERDUTY_KEY" = Some key ->
  key <> "" ->
  exists body payload details,
    posts (trace (check_financial_integrity self env r))
    = [("https://events.pagerduty.com/v2/enqueue", body)]
    /\ field body "routing_key" = Some (JStr key)
    /\ field body "event_action" = Some (JStr "trigger")
    /\ field body "payload" = Some payload
    /\ field payload "summary" = Some (JStr "Ledger Imbalance")
    /\ field payload "source" = Some (JStr "luckxpress-monitor")
    /\ field payload "severity" = Some (JStr "critical")
    /\ field payload "custom_details" = Some details
    /\ field details "message"
       = Some (JStr ("Imbalance of " +:+ py_str (imbalance_of report)
                     +:+ " detected"))
    /\ field details "timestamp" = Some (JStr (utcnow_isoformat env)).
Proof.
  intros Hget Hok Hkey Hne.
  assert (Hc : configured env = true).
  { unfold configured. rewrite Hkey.
    destruct (String.eqb_spec key ""); [contradiction|reflexivity]. }
  rewrite check_financial_integrity_unfold.
  pose proof (integrity_checks_unbalanced _ _ r _ Hget Hok) as E.
  cbv zeta in E. rewrite E. clear E.
  match goal with
  | |- context [trigger_pagerduty_alert ?s ?t ?m ?e ?r0] =>
      destruct (trigger_pagerduty_alert_configured s t m e r0 Hc)
        as (key' & Hkey' & E)
  end.
  rewrite Hkey in Hkey'. injection Hkey' as <-.
  cbv zeta in E. rewrite E. clear E. cbn [result final trace].
  eexists _, _, _.
  split.
  { destruct (http_post env pagerduty_url _) as [[]|e]; cbn; reflexivity. }
  cbn. auto 15.
Qed.

(** X6.  The paging operation posts exactly when the credential is set
    and not empty; its outcome is then the outcome of the POST, and
    otherwise it returns at once.  It reads the credential once and
    never touches the registry. *)
Theorem paging_operation_outcome self title message env r :
  let p := trigger_pagerduty_alert self title message env r in
  final p = r
  /\ env_reads (trace p) = ["PAGERDUTY_KEY"]
  /\ (length (posts (trace p)) = if configured env then 1 else 0)%nat
  /\ (configured env = false -> result p = Ret tt)
  /\ (forall key,
        environ env "PAGERDUTY_KEY" = Some key -> key <> "" ->
        result p
        = http_post env pagerduty_url
            (pagerduty_event key title message (utcnow_isoformat env))).
Proof.
  cbv zeta. destruct (configured env) eqn:Hc.
  - destruct (trigger_pagerduty_alert_configured self title message env r Hc)
      as (key & Hkey & E).
    cbv zeta in E. rewrite E. cbn [result final trace].
    split; [reflexivity|]. split; [reflexivity|]. split; [reflexivity|].
    split; [discriminate|].
    intros key' Hkey' _. rewrite Hkey in Hkey'. injection Hkey' as <-.
    reflexivity.
  - rewrite (trigger_pagerduty_alert_unconfigured _ _ _ _ _ Hc).
    cbn [result final trace].
    split; [reflexivity|]. split; [reflexivity|]. split; [reflexivity|].
    split; [reflexivity|].
    intros key Hkey Hne. unfold configured in Hc. rewrite Hkey in Hc.
    destruct (String.eqb_spec key ""); [contradiction|discriminate].
Qed.

End IntegrityEdges.

(** ** Further properties of the compliance check *)

Section ComplianceEdges.
Context `{PyRuntime}.

Lemma quiet_pauses level (t : list event) :
  Forall (message_only level) t -> sleeps t = [] /\ env_reads t = [].
Proof.
  unfold sleeps, env_reads.
  induction 1 as [|ev t (message & extras & ->) _ IH]; [auto|].
  cbn. exact IH.
Qed.

Lemma length_messages_at level (t : list event) :
  Forall (message_only level) t -> length (messages_at level t) = length t.
Proof.
  unfold messages_at.
  induction 1 as [|ev t (message & extras & ->) _ IH]; [reflexivity|].
  cbn. rewrite String.eqb_refl. cbn. rewrite IH. reflexivity.
Qed.

(** The effect of the whole check on the labelled family and on the
    error-level notifications is that of its violations block, however
    the check goes on. *)
Lemma compliance_effects_of_violations_block self env r :
  let x := check_compliance_violations self env r in
  let a := check_state_violations self env r in
  state_violations (final x) = state_violations (final a)
  /\ messages_at "error" (trace x) = messages_at "error" (trace a).
Proof.
  cbv zeta.
  destruct (result (check_state_violations self env r)) as [[]|e] eqn:Ha.
  - exact (after_violations_block self env r _ eq_refl Ha).
  - rewrite check_compliance_violations_unfold, compliance_checks_unfold.
    cbv zeta. rewrite Ha. cbn [result final trace].
    rewrite messages_at_app. cbn. rewrite app_nil_r. auto.
Qed.

(** X7.  When the violations fetch fails, the check reports and prints
    the exception and stops there: the registry keeps its counters and
    its gauge, the queue is not fetched and nothing is pushed. *)
Theorem violations_fetch_failure_changes_nothing self env r e :
  http_get_json env (violations_url self) = Raise e ->
  check_compliance_violations self env r
  = Run (Ret tt) r
        [HttpGet (violations_url self); CaptureException e;
         Print ("Error in compliance check: " +:+ py_exn_str e)].
Proof.
  intros Hget.
  rewrite check_compliance_violations_unfold, compliance_checks_unfold.
  cbv zeta.
  assert (Ea : check_state_violations self env r
               = Run (Raise e) r [HttpGet (violations_url self)]).
  { unfold check_state_violations, requests_get_json, bind.
    fold (violations_url self). cbn [result final trace]. rewrite Hget.
    reflexivity. }
  rewrite Ea. reflexivity.
Qed.

(** X8.  A violations answer that is not a list (null, a boolean, a
    number, an object or text with content) makes the check fail with
    [TypeError] before anything is counted or notified: the exception is
    reported and printed, the registry is unchanged, the queue is not
    fetched and nothing is pushed. *)
Theorem unwalkable_violations_answer self env r v :
  http_get_json env (violations_url self) = Ret v ->
  not_iterable_as_violations v = true ->
  check_compliance_violations self env r
  = Run (Ret tt) r
        [HttpGet (violations_url self); CaptureException TypeError;
         Print ("Error in compliance check: " +:+ py_exn_str TypeError)].
Proof.
  intros Hget Hbad.
  rewrite check_compliance_violations_unfold, compliance_checks_unfold.
  cbv zeta.
  assert (Ea : check_state_violations self env r
               = Run (Raise TypeError) r [HttpGet (violations_url self)]).
  { unfold check_state_violations, requests_get_json, lift, bind.
    fold (violations_url self). cbn [result final trace]. rewrite Hget.
    cbn [result final trace].
    destruct v as [| b | z | s | items | fields]; try discriminate;
      try reflexivity.
    - destruct s as [|c s]; [discriminate|]. reflexivity.
    - destruct fields as [|[k x] fields]; [discriminate|]. reflexivity. }
  rewrite Ea. reflexivity.
Qed.

(** Which endpoints the check fetches: the violations, and the queue
    when the violations block has completed. *)
Lemma compliance_fetches self env r :
  fetches (trace (check_compliance_violations self env r))
  = match result (check_state_violations self env r) with
    | Ret _ => [violations_url self; kyc_url self]
    | Raise _ => [violations_url self]
    end.
Proof.
  rewrite check_compliance_violations_unfold, compliance_checks_unfold.
  cbv zeta.
  destruct (check_state_violations_shape self env) as (labels & res & t & Ha).
  destruct (Ha r) as (E & Hmsgs). rewrite E. clear E.
  cbn [result final trace].
  destruct (quiet_messages _ _ Hmsgs) as (_ & F & _).
  assert (Fa : fetches (HttpGet (violations_url self) :: t)
               = [violations_url self]).
  { unfold fetches in *. cbn. rewrite F. reflexivity. }
  destruct res as [[]|e]; cbn [result final trace].
  2:{ unfold fetches in *. rewrite omap_app, Fa. reflexivity. }
  destruct (check_kyc_queue_frame self env (bumps labels r))
    as (_ & _ & tb & Htb & Hwarn).
  destruct (quiet_messages _ _ Hwarn) as (_ & Fb & _).
  assert (Fb' : fetches (HttpGet (kyc_url self) :: tb) = [kyc_url self]).
  { unfold fetches in *. cbn. rewrite Fb. reflexivity. }
  destruct (check_kyc_queue self env (bumps labels r)) as [resb fb tb0].
  cbn [result final trace] in *. subst tb0.
  unfold fetches in *.
  destruct resb as [[]|e]; cbn [result final trace].
  - destruct (gateway_push env _ _ fb) as [[]|e]; cbn [result final trace];
      rewrite !omap_app, Fa, Fb'; reflexivity.
  - rewrite !omap_app, Fa, Fb'. reflexivity.
Qed.

(** X9.  An empty object or an empty text in place of the violations
    list is walked like an empty list: the violations block completes
    with nothing counted and nothing notified, and the check goes on to
    fetch the queue. *)
Theorem empty_answer_is_an_empty_list self env r v :
  http_get_json env (violations_url self) = Ret v ->
  v = JList [] \/ v = JDict [] \/ v = JStr "" ->
  check_state_violations self env r
  = Run (Ret tt) r [HttpGet (violations_url self)]
  /\ fetches (trace (check_compliance_violations self env r))
     = [violations_url self; kyc_url self].
Proof.
  intros Hget Hv.
  assert (Ea : check_state_violations self env r
               = Run (Ret tt) r [HttpGet (violations_url self)]).
  { unfold check_state_violations, requests_get_json, lift, bind.
    fold (violations_url self). cbn [result final trace]. rewrite Hget.
    destruct Hv as [-> | [-> | ->]]; reflexivity. }
  split; [exact Ea|].
  rewrite compliance_fetches, Ea. reflexivity.
Qed.

(** The check once the violations block has completed and the queue
    block raised. *)
Lemma compliance_after_queue_failure self env r e fb tb :
  result (check_state_violations self env r) = Ret tt ->
  check_kyc_queue self env (final (check_state_violations self env r))
  = Run (Raise e) fb tb ->
  check_compliance_violations self env r
  = Run (Ret tt) fb
        (trace (check_state_violations self env r) ++ tb
         ++ [CaptureException e;
             Print ("Error in compliance check: " +:+ py_exn_str e)]).
Proof.
  intros Ha Hb.
  rewrite check_compliance_violations_unfold, compliance_checks_unfold.
  cbv zeta. rewrite Ha, Hb. cbn [result final trace].
  rewrite <- app_assoc. reflexivity.
Qed.

Lemma violations_block_observed self env r :
  let a := check_state_violations self env r in
  kyc_queue_size (final a) = kyc_queue_size r
  /\ daily_deposits (final a) = daily_deposits r
  /\ pushes (trace a) = [] /\ captured (trace a) = []
  /\ printed (trace a) = [] /\ posts (trace a) = []
  /\ sleeps (trace a) = [] /\ env_reads (trace a) = []
  /\ messages_at "warning" (trace a) = []
  /\ messages_at "fatal" (trace a) = [].
Proof.
  cbv zeta.
  destruct (check_state_violations_shape self env) as (labels & res & t & Ha).
  destruct (Ha r) as (E & Hmsgs). rewrite E. cbn [result final trace].
  destruct (quiet_messages _ _ Hmsgs) as (P & _ & C & R & O & _ & Hother).
  destruct (quiet_pauses _ _ Hmsgs) as (S & G).
  pose proof (Hother "warning" ltac:(discriminate)) as W.
  pose proof (Hother "fatal" ltac:(discriminate)) as A.
  unfold pushes, captured, printed, posts, sleeps, env_reads, messages_at in *.
  cbn. auto 15.
Qed.

(** X10.  When the queue answer has no usable size (no such key, or not
    an object), the exception is reported and printed; the gauge keeps
    its previous value, no warning is sent and nothing is pushed, while
    what the violations block counted and notified stays. *)
Theorem queue_answer_without_size self env r kyc e :
  result (check_state_violations self env r) = Ret tt ->
  http_get_json env (kyc_url self) = Ret kyc ->
  getitem kyc "size" = Raise e ->
  let x := check_compliance_violations self env r in
  let a := check_state_violations self env r in
  result x = Ret tt
  /\ captured (trace x) = [e]
  /\ printed (trace x) = ["Error in compliance check: " +:+ py_exn_str e]
  /\ kyc_queue_size (final x) = kyc_queue_size r
  /\ messages_at "warning" (trace x) = []
  /\ pushes (trace x) = []
  /\ state_violations (final x) = state_violations (final a)
  /\ messages_at "error" (trace x) = messages_at "error" (trace a).
Proof.
  intros Ha Hget Hsize x a. subst x a.
  destruct (compliance_effects_of_violations_block self env r) as (Hsv & Herr).
  cbv zeta in Hsv, Herr.
  destruct (violations_block_observed self env r)
    as (Hq & _ & P & C & R & _ & _ & _ & W & _).
  cbv zeta in *.
  assert (Eb : check_kyc_queue self env
                 (final (check_state_violations self env r))
               = Run (Raise e) (final (check_state_violations self env r))
                     [HttpGet (kyc_url self)]).
  { unfold check_kyc_queue, requests_get_json, lift, bind.
    fold (kyc_url self). cbn [result final trace]. rewrite Hget.
    cbn [result final trace]. rewrite Hsize. reflexivity. }
  split; [apply check_compliance_violations_returns|].
  rewrite (compliance_after_queue_failure _ _ _ _ _ _ Ha Eb) in *.
  cbn [result final trace] in *.
  unfold captured, printed, pushes in *. rewrite !messages_at_app, !omap_app.
  rewrite C, P, R, W. cbn. rewrite app_nil_r. auto 10.
Qed.

(** X11.  A size given as text never gets as far as the push.  Text that
    [float] rejects raises [ValueError] with the gauge untouched; text
    that [float] accepts is written to the gauge, and the comparison
    with 100 then raises [TypeError].  Either way the exception is
    reported, no warning is sent and nothing is pushed. *)
Theorem queue_size_as_text self env r kyc s :
  result (check_state_violations self env r) = Ret tt ->
  http_get_json env (kyc_url self) = Ret kyc ->
  field kyc "size" = Some (JStr s) ->
  let x := check_compliance_violations self env r in
  result x = Ret tt
  /\ captured (trace x) = [if py_float_str s then TypeError else ValueError]
  /\ kyc_queue_size (final x)
     = (if py_float_str s then Parsed s else kyc_queue_size r)
  /\ messages_at "warning" (trace x) = []
  /\ pushes (trace x) = [].
Proof.
  intros Ha Hget Hsize x. subst x.
  destruct (violations_block_observed self env r)
    as (Hq & _ & P & C & _ & _ & _ & _ & W & _).
  cbv zeta in *.
  set (ra := final (check_state_violations self env r)) in *.
  assert (Eb : check_kyc_queue self env ra
               = Run (Raise (if py_float_str s then TypeError else ValueError))
                     (if py_float_str s
                      then {| state_violations := state_violations ra;
                              kyc_queue_size := Parsed s;
                              daily_deposits := daily_deposits ra |}
                      else ra)
                     [HttpGet (kyc_url self)]).
  { unfold check_kyc_queue, kyc_queue_size_set, requests_get_json, modify,
      lift, bind.
    fold (kyc_url self). cbn [result final trace]. rewrite Hget.
    cbn [result final trace]. rewrite (getitem_field _ _ _ Hsize).
    cbn [result final trace to_sample].
    destruct (py_float_str s); reflexivity. }
  split; [apply check_compliance_violations_returns|].
  rewrite (compliance_after_queue_failure _ _ _ _ _ _ Ha Eb).
  cbn [result final trace].
  unfold captured, pushes in *. rewrite !messages_at_app, !omap_app.
  rewrite C, P, W. cbn.
  destruct (py_float_str s); cbn; auto.
Qed.


End ComplianceEdges.

(** ** Further properties of the cycle and of the loop *)

Section LoopEdges.
Context `{PyRuntime}.

(** Counting in the loop body: an entry is counted at most once, and
    notified only after it was counted. *)
Lemma process_violation_count v :
  exists labels res t, forall env r,
    process_violation v env r = Run res (bumps labels r) t
    /\ Forall (message_only "error") t
    /\ (length t <= length labels <= length t + 1)%nat
    /\ (res = Ret tt -> length labels = length t).
Proof.
  unfold process_violation, state_violations_inc, capture_message, emit,
    modify, lift, bind, ret.
  destruct (getitem v "type") as [t|e] eqn:Ht; simpl.
  2:{ exists [], (Raise e), []. intros. rewrite bumps_nil.
      repeat split; auto; cbn; try lia; try discriminate. }
  destruct (py_eq_str t "STATE_RESTRICTION"); simpl.
  2:{ exists [], (Ret tt), []. intros. rewrite bumps_nil.
      repeat split; auto; cbn; lia. }
  destruct (getitem v "state") as [s|e] eqn:Hs; simpl.
  2:{ exists [], (Raise e), []. intros. rewrite bumps_nil.
      repeat split; auto; cbn; try lia; try discriminate. }
  destruct (getitem v "user_id") as [u|e] eqn:Hu; simpl.
  2:{ exists [py_str s], (Raise e), []. intros.
      repeat split; auto; cbn; try lia; try discriminate. }
  destruct (getitem v "timestamp") as [ts|e] eqn:Hts; simpl.
  2:{ exists [py_str s], (Raise e), []. intros.
      repeat split; auto; cbn; try lia; try discriminate. }
  eexists [py_str s], (Ret tt), _. intros. split; [reflexivity|].
  split; [repeat constructor; unfold message_only; eauto|].
  cbn. repeat split; auto; cbn; lia.
Qed.

Lemma for_each_count vs :
  exists labels res t, forall env r,
    for_each vs process_violation env r = Run res (bumps labels r) t
    /\ Forall (message_only "error") t
    /\ (length t <= length labels <= length t + 1)%nat
    /\ (res = Ret tt -> length labels = length t).
Proof.
  induction vs as [|v vs (labels & res & t & IH)].
  - exists [], (Ret tt), []. intros. simpl. unfold ret.
    rewrite bumps_nil. repeat split; auto; cbn; lia.
  - destruct (process_violation_count v) as (l1 & res1 & t1 & Hv).
    destruct res1 as [[]|e].
    + exists (l1 ++ labels), res, (t1 ++ t). intros env r.
      destruct (Hv env r) as (E1 & M1 & _ & L1).
      destruct (IH env (bumps l1 r)) as (E2 & M2 & B2 & L2).
      specialize (L1 eq_refl).
      simpl for_each. unfold bind. rewrite E1. simpl. rewrite E2. simpl.
      rewrite bumps_app, !length_app.
      split; [reflexivity|]. split; [apply Forall_app; auto|].
      split; [lia|]. intros Hres. specialize (L2 Hres). lia.
    + exists l1, (Raise e), t1. intros env r.
      destruct (Hv env r) as (E1 & M1 & B1 & _).
      simpl for_each. unfold bind. rewrite E1. simpl.
      repeat split; auto; try lia. discriminate.
Qed.

(** X13.  Whatever the violations endpoint answers, the check counts
    every entry it notifies, and at most one entry more: the labelled
    family is the result of k increments, where k is the number of
    error-level notifications sent or that number plus one, and exactly
    that number when the violations block completes. *)
Theorem every_notification_is_counted self env r :
  exists labels,
    let x := check_compliance_violations self env r in
    let notified := length (messages_at "error" (trace x)) in
    state_violations (final x) = foldl inc_label (state_violations r) labels
    /\ (forall label,
          sample_at (state_violations (final x)) label
          = sample_at (state_violations r) label + occurrences label labels)
    /\ (notified <= length labels <= notified + 1)%nat
    /\ (result (check_state_violations self env r) = Ret tt ->
        length labels = notified).
Proof.
  destruct (compliance_effects_of_violations_block self env r) as (Hsv & Herr).
  cbv zeta in Hsv, Herr.
  assert (Ha : exists labels res t,
    check_state_violations self env r
    = Run res (bumps labels r) (HttpGet (violations_url self) :: t)
    /\ Forall (message_only "error") t
    /\ (length t <= length labels <= length t + 1)%nat
    /\ (res = Ret tt -> length labels = length t)).
  { unfold check_state_violations, requests_get_json, lift, bind.
    fold (violations_url self). cbn [result final trace].
    destruct (http_get_json env (violations_url self)) as [v|e];
      cbn [result final trace].
    2:{ exists [], (Raise e), []. rewrite bumps_nil.
        repeat split; auto; cbn; try lia; try discriminate. }
    destruct (py_iter v) as [items|e]; cbn [result final trace].
    2:{ exists [], (Raise e), []. rewrite bumps_nil.
        repeat split; auto; cbn; try lia; try discriminate. }
    destruct (for_each_count items) as (labels & res & t & Hloop).
    destruct (Hloop env r) as (E & M & B & L).
    exists labels, res, t. rewrite E. cbn [result final trace].
    split; [destruct res; reflexivity|]. auto. }
  destruct Ha as (labels & res & t & Ea & M & B & L).
  exists labels. cbv zeta. rewrite Hsv, Herr, Ea. cbn [result final trace].
  change (messages_at "error" (HttpGet (violations_url self) :: t))
    with (messages_at "error" t).
  rewrite (length_messages_at _ _ M).
  split; [reflexivity|].
  split; [intros label; apply sample_at_foldl|].
  split; [exact B|]. intros Hres. apply L.
  destruct res as [[]|e]; [reflexivity|discriminate].
Qed.

(** The compliance check seen from outside: it never posts, pauses or
    reads the environment, sends no fatal notification, leaves the
    per-user family alone, and reports, prints and pushes at most
    once. *)
Lemma check_compliance_violations_observed self env r :
  let x := check_compliance_violations self env r in
  daily_deposits (final x) = daily_deposits r
  /\ posts (trace x) = [] /\ sleeps (trace x) = [] /\ env_reads (trace x) = []
  /\ messages_at "fatal" (trace x) = []
  /\ (length (captured (trace x)) <= 1)%nat
  /\ (length (printed (trace x)) <= 1)%nat
  /\ (length (pushes (trace x)) <= 1)%nat.
Proof.
  cbv zeta.
  rewrite check_compliance_violations_unfold, compliance_checks_unfold.
  cbv zeta.
  destruct (violations_block_observed self env r)
    as (_ & Da & Pa & Ca & Ra & Oa & Sa & Ga & _ & Aa).
  cbv zeta in *.
  destruct (check_state_violations self env r) as [resa fa ta].
  cbn [result final trace] in *.
  unfold pushes, captured, printed, posts, sleeps, env_reads in *.
  destruct resa as [[]|e]; cbn [result final trace].
  2:{ rewrite !messages_at_app, !omap_app, Pa, Ca, Ra, Oa, Sa, Ga, Aa.
      cbn. auto 10. }
  destruct (check_kyc_queue_frame self env fa) as (_ & Db & tb & Htb & Hwarn).
  destruct (quiet_messages _ _ Hwarn) as (Pb & _ & Cb & Rb & Ob & _ & Hother).
  destruct (quiet_pauses _ _ Hwarn) as (Sb & Gb).
  pose proof (Hother "fatal" ltac:(discriminate)) as Ab.
  assert (Ab' : messages_at "fatal" (HttpGet (kyc_url self) :: tb) = [])
    by exact Ab.
  unfold pushes, captured, printed, posts, sleeps, env_reads in *.
  destruct (check_kyc_queue self env fa) as [resb fb tb0].
  cbn [result final trace] in *. subst tb0.
  assert (Hb : omap pushed_metrics (HttpGet (kyc_url self) :: tb) = []
               /\ omap captured_exception (HttpGet (kyc_url self) :: tb) = []
               /\ omap printed_line (HttpGet (kyc_url self) :: tb) = []
               /\ omap posted_body (HttpGet (kyc_url self) :: tb) = []
               /\ omap slept (HttpGet (kyc_url self) :: tb) = []
               /\ omap env_read (HttpGet (kyc_url self) :: tb) = []).
  { cbn. auto 10. }
  destruct Hb as (Pb' & Cb' & Rb' & Ob' & Sb' & Gb').
  destruct resb as [[]|e]; cbn [result final trace].
  - destruct (gateway_push env _ _ fb) as [[]|e]; cbn [result final trace];
      rewrite Db, Da, !messages_at_app, !omap_app,
        Pa, Ca, Ra, Oa, Sa, Ga, Aa, Pb', Cb', Rb', Ob', Sb', Gb', Ab';
      cbn; auto 10.
  - rewrite Db, Da, !messages_at_app, !omap_app,
      Pa, Ca, Ra, Oa, Sa, Ga, Aa, Pb', Cb', Rb', Ob', Sb', Gb', Ab'.
    cbn. auto 10.
Qed.

(** One cycle seen from outside. *)
Lemma cycle_observed self env r :
  let c := cycle self env r in
  result c = Ret tt
  /\ daily_deposits (final c) = daily_deposits r
  /\ sleeps (trace c) = [60]
  /\ (fetches (trace c) = [violations_url self; integrity_url self]
      \/ fetches (trace c)
         = [violations_url self; kyc_url self; integrity_url self])
  /\ (length (pushes (trace c)) <= 1)%nat
  /\ (length (posts (trace c)) <= 1)%nat
  /\ (length (captured (trace c)) <= 2)%nat
  /\ (length (printed (trace c)) <= 1)%nat
  /\ (length (messages_at "fatal" (trace c)) <= 1)%nat.
Proof.
  cbv zeta. rewrite cycle_unfold. cbv zeta. cbn [result final trace].
  destruct (check_compliance_violations_observed self env r)
    as (Dx & Ox & Sx & _ & Ax & Cx & Rx & Px).
  pose proof (compliance_fetches self env r) as Fx.
  cbv zeta in *.
  destruct (check_financial_integrity_shape self env
              (final (check_compliance_violations self env r)))
    as (_ & Fy & Gy & Py & Ry & Sy & _ & _ & Cy & Oy & Ay).
  cbv zeta in *. rewrite Fy.
  unfold pushes, captured, printed, posts, sleeps, fetches in *.
  rewrite !messages_at_app, !omap_app, !length_app.
  rewrite Sx, Sy, Ox, Py, Ry, Ax, Gy, Fx. cbn.
  split; [reflexivity|]. split; [exact Dx|]. split; [reflexivity|].
  split.
  { destruct (result (check_state_violations self env r)); cbn; auto. }
  repeat split; lia.
Qed.

(** X14.  Every cycle ends normally with its one pause of 60.  It
    fetches the violations and the integrity endpoints once each, and
    the queue endpoint between them exactly when the violations block
    completed; it pushes at most once, posts at most once, sends at most
    one fatal notification, prints at most one line and reports at most
    two exceptions. *)
Theorem cycle_is_bounded self env r :
  let c := cycle self env r in
  result c = Ret tt
  /\ sleeps (trace c) = [60]
  /\ (exists t, trace c = t ++ [Sleep 60])
  /\ fetches (trace c)
     = match result (check_state_violations self env r) with
       | Ret _ => [violations_url self; kyc_url self; integrity_url self]
       | Raise _ => [violations_url self; integrity_url self]
       end
  /\ (length (pushes (trace c)) <= 1)%nat
  /\ (length (posts (trace c)) <= 1)%nat
  /\ (length (messages_at "fatal" (trace c)) <= 1)%nat
  /\ (length (printed (trace c)) <= 1)%nat
  /\ (length (captured (trace c)) <= 2)%nat.
Proof.
  destruct (cycle_observed self env r) as (A & _ & S & _ & P & O & C & R & M).
  cbv zeta in *.
  split; [exact A|]. split; [exact S|].
  split.
  { rewrite cycle_unfold. cbv zeta. cbn [trace].
    eexists. rewrite app_assoc. reflexivity. }
  split.
  { rewrite cycle_unfold. cbv zeta. cbn [trace].
    pose proof (compliance_fetches self env r) as Fx.
    destruct (check_financial_integrity_shape self env
                (final (check_compliance_violations self env r)))
      as (_ & _ & Fy & _).
    cbv zeta in Fy. unfold fetches in *.
    rewrite !omap_app, Fx, Fy. cbn.
    destruct (result (check_state_violations self env r)); reflexivity. }
  auto 10.
Qed.

(** The script in terms of its loop: start-up ends the script when the
    Sentry client rejects the DSN, and otherwise hands over to the loop
    with the configured monitor and an empty registry. *)
Lemma main_unfold boot cycles :
  main boot cycles
  = let startup :=
      [Getenv "SENTRY_DSN"; Getenv "ENVIRONMENT";
       SentryInit (environ boot "SENTRY_DSN")
         (default "production" (environ boot "ENVIRONMENT"))] in
    if sentry_accepts (environ boot "SENTRY_DSN") then
      let y := main_loop (configured_monitor boot) cycles empty_registry in
      Run (result y) (final y)
          (startup ++ [Getenv "PROMETHEUS_GATEWAY"; Getenv "API_BASE"]
           ++ trace y)
    else Run (Raise BadDsn) empty_registry startup.
Proof.
  assert (Hstart :
    (sentry_init ;; init) boot empty_registry
    = if sentry_accepts (environ boot "SENTRY_DSN")
      then Run (Ret (configured_monitor boot)) empty_registry
             [Getenv "SENTRY_DSN"; Getenv "ENVIRONMENT";
              SentryInit (environ boot "SENTRY_DSN")
                (default "production" (environ boot "ENVIRONMENT"));
              Getenv "PROMETHEUS_GATEWAY"; Getenv "API_BASE"]
      else Run (Raise BadDsn) empty_registry
             [Getenv "SENTRY_DSN"; Getenv "ENVIRONMENT";
              SentryInit (environ boot "SENTRY_DSN")
                (default "production" (environ boot "ENVIRONMENT"))]).
  { destruct H as [rp es fs accepts].
    destruct boot as [vars gets posts pushes now].
    vm_compute.
    destruct (accepts (vars "SENTRY_DSN")); reflexivity. }
  unfold main. rewrite Hstart. cbv zeta.
  destruct (sentry_accepts (environ boot "SENTRY_DSN")); reflexivity.
Qed.

Lemma main_loop_observed self cycles : forall r,
  let y := main_loop self cycles r in
  result y = Ret tt
  /\ daily_deposits (final y) = daily_deposits r
  /\ sleeps (trace y) = replicate (length cycles) 60
  /\ (length (pushes (trace y)) <= length cycles)%nat
  /\ (length (posts (trace y)) <= length cycles)%nat.
Proof.
  induction cycles as [|env cycles IH]; intros r.
  - cbn. auto.
  - cbv zeta. rewrite main_loop_cons. cbv zeta. cbn [result final trace].
    destruct (cycle_observed self env r) as (_ & D & S & _ & P & O & _).
    destruct (IH (final (cycle self env r))) as (A' & D' & S' & P' & O').
    cbv zeta in *.
    unfold sleeps, pushes, posts in *.
    rewrite !omap_app, !length_app, S, S', D', D. cbn [length replicate].
    repeat split; auto; lia.
Qed.

(** X15.  The script can end with an exception at one place only, its
    start-up: when the Sentry client rejects the DSN, [BadDsn] ends the
    script before the monitor is built, with nothing fetched, pushed or
    posted.  Once the client has accepted the DSN the script never ends
    with an exception, whatever the services answer: it reads its four
    variables, and the loop then pauses 60 exactly once per cycle,
    pushing and paging at most once per cycle. *)
Theorem script_fails_at_startup_only boot cycles :
  let m := main boot cycles in
  (sentry_accepts (environ boot "SENTRY_DSN") = true ->
   result m = Ret tt
   /\ env_reads (firstn 5 (trace m))
      = ["SENTRY_DSN"; "ENVIRONMENT"; "PROMETHEUS_GATEWAY"; "API_BASE"]
   /\ sleeps (trace m) = replicate (length cycles) 60
   /\ (length (pushes (trace m)) <= length cycles)%nat
   /\ (length (posts (trace m)) <= length cycles)%nat)
  /\ (sentry_accepts (environ boot "SENTRY_DSN") = false ->
      main boot cycles
      = Run (Raise BadDsn) empty_registry
          [Getenv "SENTRY_DSN"; Getenv "ENVIRONMENT";
           SentryInit (environ boot "SENTRY_DSN")
             (default "production" (environ boot "ENVIRONMENT"))]).
Proof.
  cbv zeta. rewrite main_unfold. cbv zeta.
  split; intros Hdsn; rewrite Hdsn; [|reflexivity].
  cbn [result final trace].
  destruct (main_loop_observed (configured_monitor boot) cycles empty_registry)
    as (A & _ & S & P & O).
  cbv zeta in *.
  unfold sleeps, pushes, posts, env_reads in *.
  rewrite !omap_app. cbn. auto.
Qed.

Lemma main_loop_pushed_deposits self cycles : forall r metrics,
  metrics ∈ pushes (trace (main_loop self cycles r)) ->
  daily_deposits metrics = daily_deposits r.
Proof.
  induction cycles as [|env cycles IH]; intros r metrics.
  - cbn. intros Hin. inversion Hin.
  - rewrite main_loop_cons. cbv zeta. cbn [final trace].
    unfold pushes. rewrite omap_app. fold (pushes (trace (cycle self env r))).
    fold (pushes (trace (main_loop self cycles (final (cycle self env r))))).
    destruct (cycle_observed self env r) as (_ & D & _).
    cbv zeta in D.
    rewrite elem_of_app. intros [Hin|Hin].
    + destruct (cycle_anatomy self env) as (labels & Hc).
      destruct (Hc r) as (_ & [Hnone|Hone]); cbv zeta in *.
      * rewrite Hnone in Hin. inversion Hin.
      * rewrite Hone in Hin. apply list_elem_of_singleton in Hin.
        subst metrics. exact D.
    + rewrite (IH _ _ Hin). exact D.
Qed.

(** X16.  The per-user deposit family is created and pushed but never
    written: through any run of the script it stays empty, in the
    registry and in every push. *)
Theorem daily_deposits_stay_empty boot cycles :
  daily_deposits (final (main boot cycles)) = ∅
  /\ forall metrics,
       metrics ∈ pushes (trace (main boot cycles)) ->
       daily_deposits metrics = ∅.
Proof.
  rewrite main_unfold. cbv zeta.
  destruct (sentry_accepts (environ boot "SENTRY_DSN")).
  - cbn [final trace].
    destruct (main_loop_observed (configured_monitor boot) cycles
                empty_registry) as (_ & D & _).
    cbv zeta in D. split; [exact D|].
    intros metrics Hin.
    unfold pushes in Hin. rewrite !omap_app in Hin. cbn in Hin.
    exact (main_loop_pushed_deposits _ _ _ _ Hin).
  - cbn. split; [reflexivity|]. intros metrics Hin. inversion Hin.
Qed.



End LoopEdges.

(** ** The further properties at work on concrete answers *)

Section MoreExamples.
#[local] Existing Instance Demo.runtime.

Lemma integrity_fetch_failure_is_reported_witness :
  http_get_json Demo.offline (integrity_url Demo.self)
  = Raise (RequestException "connection refused")
  /\ captured (trace (check_financial_integrity Demo.self Demo.offline
                        empty_registry))
     = [RequestException "connection refused"]
  /\ messages (trace (check_financial_integrity Demo.self Demo.offline
                        empty_registry)) = [].
Proof.
  split; [reflexivity|].
  rewrite (@integrity_fetch_failure_is_reported Demo.runtime Demo.self
             Demo.offline empty_registry
             (RequestException "connection refused") eq_refl).
  split; reflexivity.
Defined.

Lemma incomplete_report_raises_no_alert_witness :
  field (JDict [("balanced", JBool false); ("imbalance", JInt 250)])
    "affected_users" = None
  /\ check_financial_integrity Demo.self Demo.partial_report empty_registry
     = Run (Ret tt) empty_registry
         [HttpGet (integrity_url Demo.self);
          CaptureException (KeyError "affected_users")].
Proof.
  split; [reflexivity|].
  exact (@incomplete_report_raises_no_alert Demo.runtime Demo.self
           Demo.partial_report empty_registry
           (JDict [("balanced", JBool false); ("imbalance", JInt 250)])
           (JBool false) eq_refl eq_refl eq_refl (or_intror eq_refl)).
Defined.

Lemma alert_follows_truth_value_witness :
  truthy JNull = false
  /\ length (messages_at "fatal"
               (trace (check_financial_integrity Demo.self Demo.null_flag
                         empty_registry))) = 1%nat
  /\ paging_calls (trace (check_financial_integrity Demo.self Demo.null_flag
                            empty_registry)) = ["PAGERDUTY_KEY"].
Proof.
  split; [reflexivity|].
  destruct (@alert_follows_truth_value Demo.runtime Demo.self Demo.null_flag
              empty_registry
              (JDict [("balanced", JNull); ("imbalance", JInt 250);
                      ("affected_users", JList [])])
              JNull (JInt 250) (JList []) eq_refl eq_refl eq_refl eq_refl)
    as (Hfatal & Hcalls).
  split; [rewrite Hfatal; reflexivity | exact Hcalls].
Defined.

Lemma paging_post_payload_witness :
  environ Demo.busy "PAGERDUTY_KEY" = Some "key"
  /\ exists body,
       posts (trace (check_financial_integrity Demo.self Demo.busy
                       empty_registry))
       = [("https://events.pagerduty.com/v2/enqueue", body)]
       /\ field body "routing_key" = Some (JStr "key").
Proof.
  split; [reflexivity|].
  assert (Hok : integrity_ok (Demo.report false) false).
  { split; [reflexivity|]. intros _. split; eexists; reflexivity. }
  destruct (@paging_post_payload Demo.runtime Demo.self Demo.busy
              empty_registry (Demo.report false) "key" eq_refl Hok eq_refl
              ltac:(discriminate))
    as (body & payload & details & Hposts & Hkey & _).
  exists body. split; [exact Hposts | exact Hkey].
Defined.

Lemma violations_fetch_failure_changes_nothing_witness :
  http_get_json Demo.offline (violations_url Demo.self)
  = Raise (RequestException "connection refused")
  /\ final (check_compliance_violations Demo.self Demo.offline empty_registry)
     = empty_registry
  /\ fetches (trace (check_compliance_violations Demo.self Demo.offline
                       empty_registry))
     = [violations_url Demo.self].
Proof.
  split; [reflexivity|].
  rewrite (@violations_fetch_failure_changes_nothing Demo.runtime Demo.self
             Demo.offline empty_registry
             (RequestException "connection refused") eq_refl).
  split; reflexivity.
Defined.

Lemma unwalkable_violations_answer_witness :
  not_iterable_as_violations
    (JDict [("violations", JList [Demo.violation "TX" "u1" "T1"])]) = true
  /\ captured (trace (check_compliance_violations Demo.self Demo.wrapped
                        empty_registry)) = [TypeError]
  /\ messages_at "error"
       (trace (check_compliance_violations Demo.self Demo.wrapped
                 empty_registry)) = [].
Proof.
  split; [reflexivity|].
  rewrite (@unwalkable_violations_answer Demo.runtime Demo.self Demo.wrapped
             empty_registry
             (JDict [("violations", JList [Demo.violation "TX" "u1" "T1"])])
             eq_refl eq_refl).
  split; reflexivity.
Defined.

Lemma empty_answer_is_an_empty_list_witness :
  http_get_json Demo.empty_object (violations_url Demo.self) = Ret (JDict [])
  /\ fetches (trace (check_compliance_violations Demo.self Demo.empty_object
                       empty_registry))
     = [violations_url Demo.self; kyc_url Demo.self].
Proof.
  split; [reflexivity|].
  destruct (@empty_answer_is_an_empty_list Demo.runtime Demo.self
              Demo.empty_object empty_registry (JDict []) eq_refl
              (or_intror (or_introl eq_refl)))
    as (_ & Hfetches).
  exact Hfetches.
Defined.

Lemma queue_answer_without_size_witness :
  getitem (JDict [("count", JInt 150)]) "size" = Raise (KeyError "size")
  /\ captured (trace (check_compliance_violations Demo.self Demo.sizeless
                        empty_registry)) = [KeyError "size"]
  /\ kyc_queue_size
       (final (check_compliance_violations Demo.self Demo.sizeless
                 empty_registry)) = Exact 0
  /\ pushes (trace (check_compliance_violations Demo.self Demo.sizeless
                      empty_registry)) = [].
Proof.
  split; [reflexivity|].
  destruct (@queue_answer_without_size Demo.runtime Demo.self Demo.sizeless
              empty_registry (JDict [("count", JInt 150)]) (KeyError "size")
              ltac:(vm_compute; reflexivity) eq_refl eq_refl)
    as (_ & Hcap & _ & Hgauge & _ & Hpush & _).
  split; [exact Hcap|]. split; [exact Hgauge | exact Hpush].
Defined.

Lemma queue_size_as_text_witness :
  @py_float_str Demo.numeric "150" = true
  /\ captured (trace (@check_compliance_violations Demo.numeric Demo.self
                         Demo.textual empty_registry)) = [TypeError]
  /\ kyc_queue_size
       (final (@check_compliance_violations Demo.numeric Demo.self
                 Demo.textual empty_registry)) = Parsed "150"
  /\ pushes (trace (@check_compliance_violations Demo.numeric Demo.self
                       Demo.textual empty_registry)) = [].
Proof.
  split; [reflexivity|].
  destruct (@queue_size_as_text Demo.numeric Demo.self Demo.textual
              empty_registry (JDict [("size", JStr "150")]) "150"
              ltac:(vm_compute; reflexivity) eq_refl eq_refl)
    as (_ & Hcap & Hgauge & _ & Hpush).
  split; [exact Hcap|]. split; [exact Hgauge | exact Hpush].
Defined.



End MoreExamples.
